(** * ReactFiber: the fiber record, its constructors and the alternate pool

    A shallow embedding of [src/renderers/shared/fiber/ReactFiber.js].

    JavaScript objects live in a heap addressed by location; a fiber is a
    heap cell holding the record declared by the Flow type [Fiber], any
    other object is a cell holding a property map.  Functions of the module
    become computations over that heap, so that aliasing between a fiber and
    its alternate is visible.  What the functions only read of the objects
    around them (which are frozen, which properties are read-only, what can
    be read from functions and primitives) is an [environment]. *)

From Stdlib Require Import ZArith.
From stdpp Require Import base option list strings gmap.

Local Open Scope string_scope.
Local Open Scope list_scope.

(** ** Values *)

Definition loc := nat.

(** The six tags that ReactFiber.js destructures from [ReactTypeOfWork]
    (lines 20-27).  The module itself is not part of the sources; only the
    names are used here, never their numeric encoding. *)
Inductive TypeOfWork : Type :=
| IndeterminateComponent
| ClassComponent
| HostContainer
| HostComponent
| CoroutineComponent
| YieldComponent.

(** [PriorityLevel] comes from [ReactPriorityLevel], which is not part of
    the sources: a priority is a JavaScript number. *)
Definition PriorityLevel : Type := Z.

(** JavaScript values, as far as [typeof] and truthiness tell them apart.
    A function carries the value of its [prototype] property; an object is
    a reference into the heap. *)
Inductive value : Type :=
| VUndefined
| VNull
| VBoolean (b : bool)
| VNumber (n : Z)
| VString (s : string)
| VSymbol (description : string)
| VFunction (id : nat) (prototype : value)
| VObject (l : loc).

(** The [typeof] operator. *)
Definition typeof (v : value) : string :=
  match v with
  | VUndefined => "undefined"
  | VNull => "object"
  | VBoolean _ => "boolean"
  | VNumber _ => "number"
  | VString _ => "string"
  | VSymbol _ => "symbol"
  | VFunction _ _ => "function"
  | VObject _ => "object"
  end.

(** ToBoolean, the test applied by [if], [&&] and [!]. *)
Definition to_boolean (v : value) : bool :=
  match v with
  | VUndefined | VNull => false
  | VBoolean b => b
  | VNumber n => negb (Z.eqb n 0)
  | VString s => negb (String.eqb s EmptyString)
  | VSymbol _ | VFunction _ _ | VObject _ => true
  end.

(** [a && b], with [b] evaluated only when [a] is truthy. *)
Definition js_and (a : value) (b : value -> value) : value :=
  if to_boolean a then b a else a.

(** ** Fibers *)

(** [type Fiber = Instance & {...}] (lines 37-109).  A field of type
    [?Fiber] is [None] for null and [Some l] for a reference; [return] is
    spelled [return_]. *)
Record Fiber : Type := mkFiber {
  tag : TypeOfWork;
  key : option string;
  type : value;
  stateNode : value;
  return_ : option loc;
  child : option loc;
  sibling : option loc;
  ref : value;
  pendingProps : value;
  memoizedProps : value;
  output : value;
  nextEffect : option loc;
  firstEffect : option loc;
  lastEffect : option loc;
  pendingWorkPriority : PriorityLevel;
  alternate : option loc;
  childInProgress : option loc
}.

(** Field assignments [fiber.x = v]. *)
Definition set_type (v : value) (f : Fiber) : Fiber :=
  let 'mkFiber tg k _ sn rt ch sb rf pp mp out ne fe le pr al cip := f in
  mkFiber tg k v sn rt ch sb rf pp mp out ne fe le pr al cip.

Definition set_stateNode (v : value) (f : Fiber) : Fiber :=
  let 'mkFiber tg k ty _ rt ch sb rf pp mp out ne fe le pr al cip := f in
  mkFiber tg k ty v rt ch sb rf pp mp out ne fe le pr al cip.

Definition set_child (v : option loc) (f : Fiber) : Fiber :=
  let 'mkFiber tg k ty sn rt _ sb rf pp mp out ne fe le pr al cip := f in
  mkFiber tg k ty sn rt v sb rf pp mp out ne fe le pr al cip.

Definition set_sibling (v : option loc) (f : Fiber) : Fiber :=
  let 'mkFiber tg k ty sn rt ch _ rf pp mp out ne fe le pr al cip := f in
  mkFiber tg k ty sn rt ch v rf pp mp out ne fe le pr al cip.

Definition set_ref (v : value) (f : Fiber) : Fiber :=
  let 'mkFiber tg k ty sn rt ch sb _ pp mp out ne fe le pr al cip := f in
  mkFiber tg k ty sn rt ch sb v pp mp out ne fe le pr al cip.

Definition set_pendingProps (v : value) (f : Fiber) : Fiber :=
  let 'mkFiber tg k ty sn rt ch sb rf _ mp out ne fe le pr al cip := f in
  mkFiber tg k ty sn rt ch sb rf v mp out ne fe le pr al cip.

Definition set_nextEffect (v : option loc) (f : Fiber) : Fiber :=
  let 'mkFiber tg k ty sn rt ch sb rf pp mp out _ fe le pr al cip := f in
  mkFiber tg k ty sn rt ch sb rf pp mp out v fe le pr al cip.

Definition set_firstEffect (v : option loc) (f : Fiber) : Fiber :=
  let 'mkFiber tg k ty sn rt ch sb rf pp mp out ne _ le pr al cip := f in
  mkFiber tg k ty sn rt ch sb rf pp mp out ne v le pr al cip.

Definition set_lastEffect (v : option loc) (f : Fiber) : Fiber :=
  let 'mkFiber tg k ty sn rt ch sb rf pp mp out ne fe _ pr al cip := f in
  mkFiber tg k ty sn rt ch sb rf pp mp out ne fe v pr al cip.

Definition set_pendingWorkPriority (v : PriorityLevel) (f : Fiber) : Fiber :=
  let 'mkFiber tg k ty sn rt ch sb rf pp mp out ne fe le _ al cip := f in
  mkFiber tg k ty sn rt ch sb rf pp mp out ne fe le v al cip.

Definition set_alternate (v : option loc) (f : Fiber) : Fiber :=
  let 'mkFiber tg k ty sn rt ch sb rf pp mp out ne fe le pr _ cip := f in
  mkFiber tg k ty sn rt ch sb rf pp mp out ne fe le pr v cip.

Definition set_childInProgress (v : option loc) (f : Fiber) : Fiber :=
  let 'mkFiber tg k ty sn rt ch sb rf pp mp out ne fe le pr al _ := f in
  mkFiber tg k ty sn rt ch sb rf pp mp out ne fe le pr al v.

(** ** The heap *)

(** A heap cell: a fiber, or any other object seen as the map of the
    properties that can be read from it. *)
Inductive cell : Type :=
| CFiber (f : Fiber)
| CObject (props : gmap string value).

Abbreviation heap := (list cell).

(** [new Error(message)], and the [TypeError] of a refused assignment
    (its message depends on the engine and is left out). *)
Inductive js_error : Type :=
| Error (message : string)
| TypeError.

(** What the functions below read of the objects around them and never
    change: the properties that can be read from a value that is no plain
    object of the heap (the own and inherited properties of a function,
    those a primitive gets from its wrapper prototype, those a fiber
    inherits), the objects that [Object.freeze] froze, and the assignments
    that an object refuses otherwise ([env_read_only l name]: the object at
    [l] has [name] as a read-only property, or lacks it and is not
    extensible).  Properties are data properties. *)
Record environment : Type := mkEnvironment {
  env_readable : value -> gmap string value;
  env_frozen : gset loc;
  env_read_only : loc -> string -> bool
}.

(** Whether the object at [l], one of those of the heap [h0], refuses the
    assignment [l.name = v].  A location past [h0] is no object yet: what
    is allocated there later is a new object, which refuses nothing. *)
Definition refuses (env : environment) (h0 : heap) (l : loc) (name : string)
    : bool :=
  bool_decide (l < length h0)
  && (bool_decide (l ∈ env_frozen env) || env_read_only env l name).

(** What running a function on a heap gives: a value and the heap after
    it, an exception, or [Stuck] when the heap does not hold what the Flow
    types promise (a dangling reference, or a plain object where a [Fiber]
    is declared).  [Stuck] is not a JavaScript behaviour. *)
Inductive outcome (A : Type) : Type :=
| Return (a : A) (h : heap)
| Throw (e : js_error) (h : heap)
| Stuck.
Arguments Return {A} a h.
Arguments Throw {A} e h.
Arguments Stuck {A}.

Definition M (A : Type) : Type := heap -> outcome A.

#[global] Instance M_ret : MRet M := fun A a h => Return a h.

#[global] Instance M_bind : MBind M := fun A B k m h =>
  match m h with
  | Return a h' => k a h'
  | Throw e h' => Throw e h'
  | Stuck => Stuck
  end.

Definition throw {A : Type} (e : js_error) : M A := fun h => Throw e h.

(** Allocation of an object: the new cell goes to the end of the heap. *)
Definition alloc (c : cell) : M loc := fun h => Return (length h) (h ++ [c]).

(** [l.x] for [l : Fiber]. *)
Definition get_field {A : Type} (l : loc) (proj : Fiber -> A) : M A := fun h =>
  match h !! l with
  | Some (CFiber f) => Return (proj f) h
  | _ => Stuck
  end.

(** [l.x = v] for [l : Fiber]. *)
Definition set_field (l : loc) (upd : Fiber -> Fiber) : M unit := fun h =>
  match h !! l with
  | Some (CFiber f) => Return tt (<[l := CFiber (upd f)]> h)
  | _ => Stuck
  end.

(** [l.name = v] in strict mode, for an object not known to be a fiber:
    a [TypeError] when the object refuses the assignment; otherwise a
    fiber has the field set and a plain object gets or overwrites the
    property. *)
Definition set_property (refused : loc -> string -> bool) (l : loc)
    (name : string) (upd : cell -> cell) : M unit := fun h =>
  match h !! l with
  | Some c =>
      if refused l name then Throw TypeError h
      else Return tt (<[l := upd c]> h)
  | None => Stuck
  end.

Definition cell_set_pendingProps (v : value) (c : cell) : cell :=
  match c with
  | CFiber f => CFiber (set_pendingProps v f)
  | CObject m => CObject (<["pendingProps" := v]> m)
  end.

Definition cell_set_pendingWorkPriority (p : PriorityLevel) (c : cell) : cell :=
  match c with
  | CFiber f => CFiber (set_pendingWorkPriority p f)
  | CObject m => CObject (<["pendingWorkPriority" := VNumber p]> m)
  end.

(** [v.isReactComponent] for a truthy [v]: read from the property map of
    a plain object of the heap, and from what the environment lets read
    from any other value (a function, a primitive, a fiber). *)
Definition get_isReactComponent (env : environment) (h : heap) (v : value)
    : value :=
  match v with
  | VObject l =>
      match h !! l with
      | Some (CObject m) => default VUndefined (m !! "isReactComponent")
      | _ => default VUndefined (env_readable env v !! "isReactComponent")
      end
  | _ => default VUndefined (env_readable env v !! "isReactComponent")
  end.

(** [typeof v === 'object' && v !== null] holds exactly for references. *)
Definition is_object (v : value) : bool :=
  String.eqb (typeof v) "object" && negb (match v with VNull => true | _ => false end).

(** ** Inputs of the constructors *)

(** A [ReactElement], read through [element.type], [element.key] and
    [element.props]. *)
Record ReactElement : Type := mkElement {
  el_type : value;
  el_key : option string;
  el_props : value
}.

(** A [ReactYield], read through [yieldNode.key]. *)
Record ReactYield : Type := mkYield {
  y_key : option string
}.

(** ** The functions of ReactFiber.js *)

Section ReactFiber.

(** The sentinel [NoWork] of [ReactPriorityLevel] (lines 29-31); its value
    is not in the sources and is left open. *)
Variable NoWork : PriorityLevel.

(** The objects the functions are called among. *)
Variable env : environment.

(** [createFiber] (lines 111-148). *)
Definition createFiber (tag : TypeOfWork) (key : option string) : M loc :=
  alloc (CFiber {|
    tag := tag;
    key := key;
    type := VNull;
    stateNode := VNull;
    return_ := None;
    child := None;
    sibling := None;
    ref := VNull;
    pendingProps := VNull;
    memoizedProps := VNull;
    output := VNull;
    nextEffect := None;
    firstEffect := None;
    lastEffect := None;
    pendingWorkPriority := NoWork;
    childInProgress := None;
    alternate := None
  |}).

(** [Component.prototype], for the functions [shouldConstruct] is called
    on (line 213). *)
Definition get_prototype (Component : value) : value :=
  match Component with
  | VFunction _ prototype => prototype
  | _ => VUndefined
  end.

(** [shouldConstruct] (lines 150-152). *)
Definition shouldConstruct (Component : value) : M bool := fun h =>
  Return (to_boolean (js_and (get_prototype Component)
                            (get_isReactComponent env h))) h.

(** [cloneFiber] (lines 155-195). *)
Definition cloneFiber (fiber : loc) (priorityLevel : PriorityLevel) : M loc :=
  alt ← get_field fiber alternate;
  match alt with
  | Some alt =>
      v ← get_field fiber stateNode; set_field alt (set_stateNode v);;
      v ← get_field fiber child; set_field alt (set_child v);;
      v ← get_field fiber childInProgress; set_field alt (set_childInProgress v);;
      v ← get_field fiber sibling; set_field alt (set_sibling v);;
      v ← get_field alt ref; set_field alt (set_ref v);;
      v ← get_field fiber pendingProps; set_field alt (set_pendingProps v);;
      set_field alt (set_pendingWorkPriority priorityLevel);;
      set_field alt (set_nextEffect None);;
      set_field alt (set_firstEffect None);;
      set_field alt (set_lastEffect None);;
      mret alt
  | None =>
      t ← get_field fiber tag;
      k ← get_field fiber key;
      alt ← createFiber t k;
      v ← get_field fiber type; set_field alt (set_type v);;
      v ← get_field fiber stateNode; set_field alt (set_stateNode v);;
      v ← get_field fiber child; set_field alt (set_child v);;
      v ← get_field fiber childInProgress; set_field alt (set_childInProgress v);;
      v ← get_field fiber sibling; set_field alt (set_sibling v);;
      v ← get_field alt ref; set_field alt (set_ref v);;
      v ← get_field fiber pendingProps; set_field alt (set_pendingProps v);;
      set_field alt (set_pendingWorkPriority priorityLevel);;
      set_field alt (set_alternate (Some fiber));;
      set_field fiber (set_alternate (Some alt));;
      mret alt
  end.

(** [createHostContainerFiber] (lines 197-200). *)
Definition createHostContainerFiber : M loc :=
  fiber ← createFiber HostContainer None;
  mret fiber.

(** [createFiberFromElementType] (lines 210-227).  The result is the
    location held by the variable [fiber]; on the third branch it is the
    argument itself, whatever object that is. *)
Definition createFiberFromElementType (type : value) (key : option string) : M loc :=
  if String.eqb (typeof type) "function" then
    b ← shouldConstruct type;
    fiber ← (if b : bool then createFiber ClassComponent key
             else createFiber IndeterminateComponent key);
    set_field fiber (set_type type);;
    mret fiber
  else if String.eqb (typeof type) "string" then
    fiber ← createFiber HostComponent key;
    set_field fiber (set_type type);;
    mret fiber
  else if is_object type then
    match type with
    | VObject l => mret l
    | _ => fun _ => Stuck
    end
  else
    throw (Error ("Unknown component type: " +:+ typeof type)).

(** [createFiberFromElement] (lines 202-208).  The two assignments are
    refused or not as the object returned was when the function was
    entered. *)
Definition createFiberFromElement (element : ReactElement)
    (priorityLevel : PriorityLevel) : M loc := fun h0 =>
  (fiber ← createFiberFromElementType (el_type element) (el_key element);
   set_property (refuses env h0) fiber "pendingProps"
     (cell_set_pendingProps (el_props element));;
   set_property (refuses env h0) fiber "pendingWorkPriority"
     (cell_set_pendingWorkPriority priorityLevel);;
   mret fiber) h0.

(** [createFiberFromYield] (lines 239-243): [{}] is a new object without
    properties; [priorityLevel] is not used. *)
Definition createFiberFromYield (yieldNode : ReactYield)
    (priorityLevel : PriorityLevel) : M loc :=
  fiber ← createFiber YieldComponent (y_key yieldNode);
  o ← alloc (CObject ∅);
  set_field fiber (set_pendingProps (VObject o));;
  mret fiber.

(** A run of [cloneFiber] calls, one after the other on the same heap,
    collecting the fibers returned. *)
Fixpoint clone_each (calls : list (loc * PriorityLevel)) : M (list loc) :=
  match calls with
  | [] => mret []
  | (fiber, priorityLevel) :: rest =>
      alt ← cloneFiber fiber priorityLevel;
      alts ← clone_each rest;
      mret (alt :: alts)
  end.

End ReactFiber.

(** ** Shapes of the heap *)




(** The alternate [g] carries what [cloneFiber] copies from [f]: nothing
    changed since [g] was last cloned from [f]. *)
Definition in_sync (f g : Fiber) : Prop :=
  stateNode g = stateNode f /\ child g = child f /\
  childInProgress g = childInProgress f /\ sibling g = sibling f /\
  pendingProps g = pendingProps f.


(** The alternate [g] of [f] after the refresh path (lines 163-175). *)
Definition refreshed (f g : Fiber) (p : PriorityLevel) : Fiber := {|
  tag := tag g;
  key := key g;
  type := type g;
  stateNode := stateNode f;
  return_ := return_ g;
  child := child f;
  sibling := sibling f;
  ref := ref g;
  pendingProps := pendingProps f;
  memoizedProps := memoizedProps g;
  output := output g;
  nextEffect := None;
  firstEffect := None;
  lastEffect := None;
  pendingWorkPriority := p;
  alternate := alternate g;
  childInProgress := childInProgress f
|}.

(** The alternate allocated for [f], itself at [n] (lines 181-192). *)
Definition allocated (f : Fiber) (n : loc) (p : PriorityLevel) : Fiber := {|
  tag := tag f;
  key := key f;
  type := type f;
  stateNode := stateNode f;
  return_ := None;
  child := child f;
  sibling := sibling f;
  ref := VNull;
  pendingProps := pendingProps f;
  memoizedProps := VNull;
  output := VNull;
  nextEffect := None;
  firstEffect := None;
  lastEffect := None;
  pendingWorkPriority := p;
  alternate := Some n;
  childInProgress := childInProgress f
|}.

(** The alternate [g] after a clone that finds it in sync: the priority is
    set and the effect list is emptied (lines 169-175). *)
Definition settled (q : PriorityLevel) (g : Fiber) : Fiber :=
  set_lastEffect None (set_firstEffect None (set_nextEffect None
    (set_pendingWorkPriority q g))).

(** The fiber [createFiber] builds. *)
Definition blank (NoWork : PriorityLevel) (t : TypeOfWork) (k : option string) : Fiber := {|
  tag := t;
  key := k;
  type := VNull;
  stateNode := VNull;
  return_ := None;
  child := None;
  sibling := None;
  ref := VNull;
  pendingProps := VNull;
  memoizedProps := VNull;
  output := VNull;
  nextEffect := None;
  firstEffect := None;
  lastEffect := None;
  pendingWorkPriority := NoWork;
  alternate := None;
  childInProgress := None
|}.

(** Example heaps: a host fiber with a ref and no alternate; the same
    fiber paired with an alternate that holds another ref. *)
Definition span_fiber : Fiber := {|
  tag := HostComponent;
  key := Some "a";
  type := VString "span";
  stateNode := VObject 2;
  return_ := None;
  child := None;
  sibling := None;
  ref := VFunction 1 VUndefined;
  pendingProps := VObject 3;
  memoizedProps := VNull;
  output := VNull;
  nextEffect := None;
  firstEffect := None;
  lastEffect := None;
  pendingWorkPriority := 1%Z;
  alternate := None;
  childInProgress := None
|}.

Definition stale_fiber : Fiber := {|
  tag := HostComponent;
  key := Some "a";
  type := VString "span";
  stateNode := VObject 2;
  return_ := None;
  child := None;
  sibling := None;
  ref := VFunction 7 VUndefined;
  pendingProps := VNull;
  memoizedProps := VNull;
  output := VNull;
  nextEffect := Some 0;
  firstEffect := Some 0;
  lastEffect := Some 0;
  pendingWorkPriority := 0%Z;
  alternate := Some 0;
  childInProgress := None
|}.

Definition single_heap : heap :=
  [CFiber span_fiber; CFiber (blank 0%Z HostContainer None);
   CObject ∅; CObject {["x" := VNumber 1]}].

Definition paired_heap : heap :=
  [CFiber (set_alternate (Some 1) span_fiber); CFiber stale_fiber;
   CObject ∅; CObject {["x" := VNumber 1]}].

(** ** The coroutine constructor *)

(** [l.name] for [l] a plain object: a missing property reads
    [undefined]. *)
Definition get_object_property (l : loc) (name : string) : M value := fun h =>
  match h !! l with
  | Some (CObject m) => Return (default VUndefined (m !! name)) h
  | _ => Stuck
  end.

(** A value passed where [null | string] is declared. *)
Definition as_key (v : value) : M (option string) := fun h =>
  match v with
  | VNull => Return None h
  | VString s => Return (Some s) h
  | _ => Stuck
  end.

(** [createFiberFromCoroutine] (lines 231-237).  The coroutine is an
    object of the heap, read through [coroutine.key] and
    [coroutine.handler] and stored as it is in [pendingProps]. *)
Definition createFiberFromCoroutine (NoWork : PriorityLevel) (coroutine : loc)
    (priorityLevel : PriorityLevel) : M loc :=
  k ← get_object_property coroutine "key";
  k ← as_key k;
  fiber ← createFiber NoWork CoroutineComponent k;
  v ← get_object_property coroutine "handler";
  set_field fiber (set_type v);;
  set_field fiber (set_pendingProps (VObject coroutine));;
  set_field fiber (set_pendingWorkPriority priorityLevel);;
  mret fiber.

(** ** More shapes of the heap *)

Definition is_fiber (h : heap) (l : loc) : Prop :=
  exists f : Fiber, h !! l = Some (CFiber f).

(** Every [alternate] link of the heap leads to a fiber that links back. *)
Definition pairing_symmetric (h : heap) : Prop :=
  forall (m m' : loc) (fm : Fiber),
    h !! m = Some (CFiber fm) -> alternate fm = Some m' ->
    exists fm', h !! m' = Some (CFiber fm') /\ alternate fm' = Some m.

(** The environment of the examples: nothing to read from functions and
    primitives, nothing frozen, nothing read-only. *)
Definition plain_environment : environment := {|
  env_readable := fun _ => ∅;
  env_frozen := ∅;
  env_read_only := fun _ _ => false
|}.

(** A class component for the examples: the object at location 0 is the
    prototype, which holds [isReactComponent]; the function [VFunction 9 _]
    has it as its [prototype]. *)
Definition class_heap : heap :=
  [CObject (<["isReactComponent" := VObject 1]> ∅); CObject ∅].

Definition class_component : value := VFunction 9 (VObject 0).

(** An environment in which [isReactComponent] can be read from the
    function [VFunction 5 _]. *)
Definition marked_function_environment : environment := {|
  env_readable := fun v =>
    match v with
    | VFunction 5 _ => {["isReactComponent" := VBoolean true]}
    | _ => ∅
    end;
  env_frozen := ∅;
  env_read_only := fun _ _ => false
|}.

(** A coroutine object, for the examples. *)
Definition coroutine_heap : heap :=
  [CObject (<["handler" := VFunction 4 VUndefined]>
              (<["key" := VString "c"]> ∅));
   CFiber span_fiber].

(** ** ReactCallReturn.js *)

(** The strict equality [===] on the values modelled: symbols are those
    of the global registry, equal when their descriptions are; functions
    and objects are equal when they are the same function or object. *)
Definition strict_eq (a b : value) : bool :=
  match a, b with
  | VUndefined, VUndefined => true
  | VNull, VNull => true
  | VBoolean x, VBoolean y => Bool.eqb x y
  | VNumber x, VNumber y => Z.eqb x y
  | VString x, VString y => String.eqb x y
  | VSymbol x, VSymbol y => String.eqb x y
  | VFunction x _, VFunction y _ => Nat.eqb x y
  | VObject x, VObject y => Nat.eqb x y
  | _, _ => false
  end.

(** An argument of Flow type [?string]. *)
Inductive maybe_string : Type :=
| MUndefined
| MNull
| MString (s : string).

(** [v.name] for a name that is no field of a fiber: read from the
    property map of a plain object, [undefined] elsewhere. *)
Definition read_property (h : heap) (v : value) (name : string) : value :=
  match v with
  | VObject l =>
      match h !! l with
      | Some (CObject m) => default VUndefined (m !! name)
      | _ => VUndefined
      end
  | _ => VUndefined
  end.

(** [Object.freeze(v)]: an object is added to the frozen objects; a
    primitive is left alone, and a function, which has no location here,
    leaves no trace. *)
Definition object_freeze (v : value) (frozen : gset loc) : gset loc :=
  match v with
  | VObject l => {[l]} ∪ frozen
  | _ => frozen
  end.

Section ReactCallReturn.

(** The two tags imported from [shared/ReactSymbols] (line 10), the flag
    [__DEV__] and whether [Object.freeze] exists: none is in the sources. *)
Variables REACT_CALL_TYPE REACT_RETURN_TYPE : value.
Variable DEV : bool.
Variable has_freeze : bool.

(** [unstable_createCall] (lines 16-41), on a heap and the set of its
    frozen objects.  [key] defaults to null when it is undefined. *)
Definition unstable_createCall (children handler props : value)
    (key : maybe_string) (st : heap * gset loc) : loc * (heap * gset loc) :=
  let key := match key with MUndefined => MNull | _ => key end in
  let call := length st.1 in
  let h :=
    st.1 ++ [CObject
      (<["props" := props]>
      (<["handler" := handler]>
      (<["children" := children]>
      (<["key" := match key with
                  | MUndefined | MNull => VNull
                  | MString s => VString (String.append EmptyString s)
                  end]>
      (<["$$typeof" := REACT_CALL_TYPE]> ∅)))))] in
  let frozen :=
    if DEV then
      if has_freeze then
        object_freeze (VObject call)
          (object_freeze (read_property h (VObject call) "props") st.2)
      else st.2
    else st.2 in
  (call, (h, frozen)).

(** [unstable_createReturn] (lines 43-58). *)
Definition unstable_createReturn (v : value) (st : heap * gset loc)
    : loc * (heap * gset loc) :=
  let returnNode := length st.1 in
  let h :=
    st.1 ++ [CObject (<["value" := v]> (<["$$typeof" := REACT_RETURN_TYPE]> ∅))] in
  let frozen :=
    if DEV then
      if has_freeze then object_freeze (VObject returnNode) st.2 else st.2
    else st.2 in
  (returnNode, (h, frozen)).

(** [unstable_isCall] (lines 63-69). *)
Definition unstable_isCall (object : value) (h : heap) : bool :=
  if String.eqb (typeof object) "object" then
    if negb (strict_eq object VNull) then
      strict_eq (read_property h object "$$typeof") REACT_CALL_TYPE
    else false
  else false.

(** [unstable_isReturn] (lines 74-80). *)
Definition unstable_isReturn (object : value) (h : heap) : bool :=
  if String.eqb (typeof object) "object" then
    if negb (strict_eq object VNull) then
      strict_eq (read_property h object "$$typeof") REACT_RETURN_TYPE
    else false
  else false.

End ReactCallReturn.

(** A call built and frozen by [unstable_createCall] in development
    mode, on the example heap: the location of the call, the heap and the
    frozen objects after it. *)
Definition frozen_call : loc * (heap * gset loc) :=
  unstable_createCall (VSymbol "react.call") true true
    (VObject 2) (VFunction 4 VUndefined) (VObject 3) (MString "k")
    (single_heap, ∅).

(** The fiber at [l] has no alternate yet. *)
Definition is_unpaired (h : heap) (l : loc) : bool :=
  match h !! l with
  | Some (CFiber f) =>
      match alternate f with
      | None => true
      | Some _ => false
      end
  | _ => false
  end.

(** ** Running the heap operations *)

Lemma bind_unfold {A B : Type} (m : M A) (k : A -> M B) (h : heap) :
  (m ≫= k) h =
  match m h with
  | Return a h' => k a h'
  | Throw e h' => Throw e h'
  | Stuck => Stuck
  end.
Proof. reflexivity. Qed.

Lemma run_get_field {A B : Type} (l : loc) (proj : Fiber -> A) (k : A -> M B)
    (h : heap) (f : Fiber) :
  h !! l = Some (CFiber f) ->
  (get_field l proj ≫= k) h = k (proj f) h.
Proof. intros Hl. rewrite bind_unfold. unfold get_field. by rewrite Hl. Qed.

Lemma run_set_field {B : Type} (l : loc) (upd : Fiber -> Fiber) (k : unit -> M B)
    (h : heap) (f : Fiber) :
  h !! l = Some (CFiber f) ->
  (set_field l upd ≫= k) h = k tt (<[l := CFiber (upd f)]> h).
Proof. intros Hl. rewrite bind_unfold. unfold set_field. by rewrite Hl. Qed.

Lemma run_set_property {B : Type} (refused : loc -> string -> bool) (l : loc)
    (name : string) (upd : cell -> cell) (k : unit -> M B)
    (h : heap) (c : cell) :
  h !! l = Some c ->
  (set_property refused l name upd ≫= k) h =
    if refused l name then Throw TypeError h else k tt (<[l := upd c]> h).
Proof.
  intros Hl. rewrite bind_unfold. unfold set_property. rewrite Hl.
  by destruct (refused l name).
Qed.

Lemma run_alloc {B : Type} (c : cell) (k : loc -> M B) (h : heap) :
  (alloc c ≫= k) h = k (length h) (h ++ [c]).
Proof. reflexivity. Qed.

Lemma run_mret {A : Type} (a : A) (h : heap) : (mret a : M A) h = Return a h.
Proof. reflexivity. Qed.

(** The last cell of a heap, read and overwritten. *)
Lemma lookup_last_cell (h : heap) (c : cell) : (h ++ [c]) !! length h = Some c.
Proof. by rewrite list_lookup_middle. Qed.

Lemma insert_last_cell (h : heap) (c d : cell) :
  <[length h := d]> (h ++ [c]) = h ++ [d].
Proof.
  rewrite insert_app_r_alt by lia. by rewrite Nat.sub_diag.
Qed.

Lemma lookup_old_cell (h : heap) (c d : cell) (l : loc) :
  h !! l = Some c -> (h ++ [d]) !! l = Some c.
Proof. intros Hl. rewrite lookup_app_l; [done | by eapply lookup_lt_Some]. Qed.

(** Reading a cell of a heap that went through updates and allocations. *)
Ltac heap_lookup :=
  first
    [ eassumption
    | apply lookup_last_cell
    | apply list_lookup_insert_eq; rewrite ?length_insert, ?length_app; simpl; lia
    | rewrite list_lookup_insert_ne by (simpl; lia); heap_lookup
    | apply lookup_old_cell; heap_lookup ].

(** One statement of a function body. *)
Ltac heap_step :=
  first
    [ (erewrite run_get_field by heap_lookup)
    | (erewrite run_set_field by heap_lookup);
      rewrite ?list_insert_insert_eq, ?insert_last_cell
    | rewrite run_alloc ].

(** ** The two paths of [cloneFiber] in closed form *)

Lemma cloneFiber_refresh (NoWork : PriorityLevel) (h : heap) (n a : loc)
    (f g : Fiber) (p : PriorityLevel) :
  h !! n = Some (CFiber f) ->
  alternate f = Some a ->
  h !! a = Some (CFiber g) ->
  cloneFiber NoWork n p h = Return a (<[a := CFiber (refreshed f g p)]> h).
Proof.
  intros Hn Halt Ha.
  pose proof (lookup_lt_Some _ _ _ Ha) as Hlen.
  unfold cloneFiber.
  rewrite (run_get_field _ _ _ _ _ Hn), Halt.
  destruct (decide (a = n)) as [-> | Hne].
  - assert (g = f) as -> by congruence.
    clear Ha. repeat heap_step.
    unfold mret, M_ret. by destruct f.
  - repeat heap_step.
    unfold mret, M_ret. by destruct f, g.
Qed.

Lemma cloneFiber_alloc (NoWork : PriorityLevel) (h : heap) (n : loc)
    (f : Fiber) (p : PriorityLevel) :
  h !! n = Some (CFiber f) ->
  alternate f = None ->
  cloneFiber NoWork n p h =
    Return (length h)
      (<[n := CFiber (set_alternate (Some (length h)) f)]> h
       ++ [CFiber (allocated f n p)]).
Proof.
  intros Hn Halt.
  pose proof (lookup_lt_Some _ _ _ Hn) as Hlen.
  unfold cloneFiber, createFiber.
  rewrite (run_get_field _ _ _ _ _ Hn), Halt.
  repeat heap_step.
  unfold mret, M_ret. rewrite insert_app_l by done. by destruct f.
Qed.

(** Whichever path is taken, [cloneFiber] returns: on a fiber whose
    alternate, if any, is a fiber, it never gets stuck. *)
Lemma cloneFiber_cases (NoWork : PriorityLevel) (h : heap) (n : loc)
    (f : Fiber) (p : PriorityLevel) :
  h !! n = Some (CFiber f) ->
  (forall a, alternate f = Some a -> exists g, h !! a = Some (CFiber g)) ->
  (exists a g,
      alternate f = Some a /\ h !! a = Some (CFiber g) /\
      cloneFiber NoWork n p h = Return a (<[a := CFiber (refreshed f g p)]> h))
  \/ (alternate f = None /\
      cloneFiber NoWork n p h =
        Return (length h)
          (<[n := CFiber (set_alternate (Some (length h)) f)]> h
           ++ [CFiber (allocated f n p)])).
Proof.
  intros Hn Htyped.
  destruct (alternate f) as [a|] eqn:Halt.
  - destruct (Htyped a eq_refl) as [g Ha].
    left. exists a, g. split_and!; try done.
    by apply cloneFiber_refresh with (f := f).
  - right. split; [done|]. by apply cloneFiber_alloc.
Qed.




(** The heap after the allocation path, read at the new alternate and at
    the fiber. *)
Lemma lookup_allocated (h : heap) (n : loc) (c d : cell) :
  (<[n := c]> h ++ [d]) !! length h = Some d.
Proof.
  rewrite lookup_app_r by by rewrite length_insert.
  by rewrite length_insert, Nat.sub_diag.
Qed.

Lemma lookup_relinked (h : heap) (n : loc) (c d : cell) :
  n < length h -> (<[n := c]> h ++ [d]) !! n = Some c.
Proof.
  intros Hlen. rewrite lookup_app_l by by rewrite length_insert.
  by apply list_lookup_insert_eq.
Qed.

(** ** The alternate pool: [cloneFiber] *)

(** C1, as the code behaves: the ref of the fiber is not carried over to
    the alternate.  Lines 167 and 187 assign [alt.ref] to itself, so a
    newly allocated alternate keeps the null ref of [createFiber] and a
    refreshed alternate keeps the ref it held before, whatever the ref of
    the fiber is.  Here the fiber at location 0 holds the ref
    [VFunction 1 _]; its new alternate holds null, and its existing
    alternate keeps [VFunction 7 _]. *)
Theorem cloneFiber_ref_not_copied :
  ref span_fiber = VFunction 1 VUndefined /\
  (exists h' g,
      cloneFiber 0%Z 0 5%Z single_heap = Return 4 h' /\
      h' !! 4 = Some (CFiber g) /\ ref g = VNull) /\
  (exists h' g,
      cloneFiber 0%Z 0 5%Z paired_heap = Return 1 h' /\
      h' !! 1 = Some (CFiber g) /\ ref g = VFunction 7 VUndefined).
Proof.
  split; [reflexivity|]. split.
  - eexists _, _. split_and!.
    + by apply cloneFiber_alloc with (f := span_fiber).
    + reflexivity.
    + reflexivity.
  - eexists _, _. split_and!.
    + by apply cloneFiber_refresh
        with (f := set_alternate (Some 1) span_fiber) (g := stale_fiber).
    + reflexivity.
    + reflexivity.
Qed.



(** C4: the fiber returned by [cloneFiber] has [nextEffect], [firstEffect]
    and [lastEffect] null, on the refresh path and on the allocation path,
    whatever the alternate held before. *)
Theorem cloneFiber_effects_reset (NoWork : PriorityLevel) (h : heap)
    (n : loc) (f : Fiber) (p : PriorityLevel) :
  h !! n = Some (CFiber f) ->
  (forall a, alternate f = Some a -> exists g, h !! a = Some (CFiber g)) ->
  exists (a : loc) (h' : heap) (fa : Fiber),
    cloneFiber NoWork n p h = Return a h' /\
    h' !! a = Some (CFiber fa) /\
    nextEffect fa = None /\ firstEffect fa = None /\ lastEffect fa = None.
Proof.
  intros Hn Htyped.
  destruct (cloneFiber_cases NoWork h n f p Hn Htyped)
    as [(a & g & Halt & Ha & Hrun) | [Halt Hrun]].
  - exists a, (<[a := CFiber (refreshed f g p)]> h), (refreshed f g p).
    split; [exact Hrun|]. split; [|done].
    apply list_lookup_insert_eq. by eapply lookup_lt_Some.
  - eexists _, _, (allocated f n p). split; [exact Hrun|]. split; [|done].
    apply lookup_allocated.
Qed.

(** C4 at a pair whose alternate carries a stale effect list. *)
Lemma cloneFiber_effects_reset_witness :
  exists (a : loc) (h' : heap) (fa : Fiber),
    cloneFiber 0%Z 0 5%Z paired_heap = Return a h' /\
    h' !! a = Some (CFiber fa) /\
    nextEffect fa = None /\ firstEffect fa = None /\ lastEffect fa = None.
Proof.
  apply (cloneFiber_effects_reset 0%Z paired_heap 0
           (set_alternate (Some 1) span_fiber) 5%Z).
  - reflexivity.
  - intros a Ha. injection Ha as <-. exists stale_fiber. reflexivity.
Defined.

(** A clone that finds the alternate in sync changes its priority and
    effect list only. *)
Lemma cloneFiber_again (NoWork : PriorityLevel) (h : heap) (n a : loc)
    (f g : Fiber) (q : PriorityLevel) :
  h !! n = Some (CFiber f) ->
  alternate f = Some a ->
  h !! a = Some (CFiber g) ->
  in_sync f g ->
  cloneFiber NoWork n q h = Return a (<[a := CFiber (settled q g)]> h).
Proof.
  intros Hn Halt Ha (Hs1 & Hs2 & Hs3 & Hs4 & Hs5).
  rewrite (cloneFiber_refresh NoWork h n a f g q Hn Halt Ha).
  do 3 f_equal. destruct f, g. simpl in *. by subst.
Qed.

Lemma settled_settled (q q' : PriorityLevel) (g : Fiber) :
  settled q' (settled q g) = settled q' g.
Proof. by destruct g. Qed.

Lemma in_sync_settled (f g : Fiber) (q : PriorityLevel) :
  in_sync f g -> in_sync f (settled q g).
Proof. by destruct g. Qed.

(** Any number of further clones of [n] return the same alternate; the
    heap changes at the alternate only, by the last priority. *)
Lemma clone_each_again (NoWork : PriorityLevel) (n a : loc)
    (qs : list PriorityLevel) :
  forall (h : heap) (f g : Fiber),
    h !! n = Some (CFiber f) ->
    alternate f = Some a ->
    h !! a = Some (CFiber g) ->
    in_sync f g ->
    clone_each NoWork ((fun q => (n, q)) <$> qs) h =
      Return (replicate (length qs) a)
        (match last qs with
         | Some q => <[a := CFiber (settled q g)]> h
         | None => h
         end).
Proof.
  induction qs as [|q qs IH]; intros h f g Hn Halt Ha Hsync; [done|].
  pose proof (lookup_lt_Some _ _ _ Ha) as Hlen.
  cbn [fmap list_fmap clone_each length replicate].
  rewrite bind_unfold, (cloneFiber_again NoWork h n a f g q Hn Halt Ha Hsync).
  rewrite bind_unfold. rewrite last_cons.
  destruct (decide (a = n)) as [-> | Hne].
  - assert (g = f) as -> by congruence.
    rewrite (IH _ (settled q f) (settled q f)).
    + destruct (last qs); [|done].
      by rewrite settled_settled, list_insert_insert_eq.
    + by apply list_lookup_insert_eq.
    + by destruct f.
    + by apply list_lookup_insert_eq.
    + done.
  - rewrite (IH _ f (settled q g)).
    + destruct (last qs); [|done].
      by rewrite settled_settled, list_insert_insert_eq.
    + by rewrite list_lookup_insert_ne.
    + done.
    + by apply list_lookup_insert_eq.
    + by apply in_sync_settled.
Qed.

(** The first clone leaves [n] with an alternate that is in sync with it
    and has the requested priority and an empty effect list. *)
Lemma cloneFiber_first (NoWork : PriorityLevel) (h : heap) (n : loc)
    (f : Fiber) (p : PriorityLevel) :
  h !! n = Some (CFiber f) ->
  (forall a, alternate f = Some a -> exists g, h !! a = Some (CFiber g)) ->
  exists (a : loc) (h1 : heap) (fn g1 : Fiber),
    cloneFiber NoWork n p h = Return a h1 /\
    h1 !! n = Some (CFiber fn) /\ alternate fn = Some a /\
    h1 !! a = Some (CFiber g1) /\ in_sync fn g1 /\
    settled p g1 = g1.
Proof.
  intros Hn Htyped.
  pose proof (lookup_lt_Some _ _ _ Hn) as Hlen.
  destruct (cloneFiber_cases NoWork h n f p Hn Htyped)
    as [(a & g & Halt & Ha & Hrun) | [Halt Hrun]].
  - pose proof (lookup_lt_Some _ _ _ Ha) as Hlena.
    destruct (decide (a = n)) as [-> | Hne].
    + assert (g = f) as -> by congruence.
      exists n, (<[n := CFiber (refreshed f f p)]> h),
        (refreshed f f p), (refreshed f f p).
      rewrite list_lookup_insert_eq by done. by split_and!.
    + exists a, (<[a := CFiber (refreshed f g p)]> h), f, (refreshed f g p).
      rewrite list_lookup_insert_ne by done.
      rewrite list_lookup_insert_eq by done. by split_and!.
  - exists (length h), (<[n := CFiber (set_alternate (Some (length h)) f)]> h
                        ++ [CFiber (allocated f n p)]),
      (set_alternate (Some (length h)) f), (allocated f n p).
    rewrite lookup_relinked by done. rewrite lookup_allocated.
    split_and!; try done; by destruct f.
Qed.

Lemma settled_priority (p q : PriorityLevel) (g : Fiber) :
  settled p g = g ->
  settled q g = set_pendingWorkPriority q g /\ set_pendingWorkPriority p g = g.
Proof. destruct g. unfold settled. simpl. intros [= -> -> -> ->]. done. Qed.

(** C3: after a first clone of [n] has returned [a], any number of further
    clones of [n] return [a] again and allocate nothing; [n.alternate]
    stays [a]; and the heap after them is the heap after the first clone
    with the [pendingWorkPriority] of [a] set to the last priority
    requested, so that [child], [sibling], [childInProgress] and every
    other field but the priority are as the first clone left them (the
    effect-list fields empty). *)
Theorem cloneFiber_repeated_same_alternate (NoWork : PriorityLevel) (h : heap)
    (n : loc) (f : Fiber) (p : PriorityLevel) :
  h !! n = Some (CFiber f) ->
  (forall a, alternate f = Some a -> exists g, h !! a = Some (CFiber g)) ->
  exists (a : loc) (h1 : heap) (g1 : Fiber),
    cloneFiber NoWork n p h = Return a h1 /\
    h1 !! a = Some (CFiber g1) /\
    nextEffect g1 = None /\ firstEffect g1 = None /\ lastEffect g1 = None /\
    forall qs : list PriorityLevel,
      exists hk : heap,
        clone_each NoWork ((fun q => (n, q)) <$> qs) h1 =
          Return (replicate (length qs) a) hk /\
        hk = <[a := CFiber (set_pendingWorkPriority (default p (last qs)) g1)]> h1 /\
        length hk = length h1 /\
        exists fk, hk !! n = Some (CFiber fk) /\ alternate fk = Some a.
Proof.
  intros Hn Htyped.
  destruct (cloneFiber_first NoWork h n f p Hn Htyped)
    as (a & h1 & fn & g1 & Hrun & Hn1 & Halt1 & Ha1 & Hsync & Hset).
  exists a, h1, g1. split; [done|]. split; [done|].
  split_and!; try (by rewrite <- Hset; destruct g1).
  intros qs.
  pose proof (lookup_lt_Some _ _ _ Ha1) as Hlen.
  exists (<[a := CFiber (set_pendingWorkPriority (default p (last qs)) g1)]> h1).
  split_and!.
  - rewrite (clone_each_again NoWork n a qs h1 fn g1 Hn1 Halt1 Ha1 Hsync).
    f_equal. destruct (last qs) as [q|]; simpl.
    + by destruct (settled_priority p q g1 Hset) as [-> _].
    + destruct (settled_priority p p g1 Hset) as [_ ->].
      by rewrite list_insert_id.
  - done.
  - by rewrite length_insert.
  - destruct (decide (a = n)) as [-> | Hne].
    + rewrite list_lookup_insert_eq by done. eexists. split; [done|].
      assert (g1 = fn) as -> by congruence. by destruct fn.
    + rewrite list_lookup_insert_ne by done. by exists fn.
Qed.

(** C3 at a fiber without alternate: the first clone allocates it, the
    later ones reuse it. *)
Lemma cloneFiber_repeated_same_alternate_witness :
  exists (a : loc) (h1 : heap) (g1 : Fiber),
    cloneFiber 0%Z 0 5%Z single_heap = Return a h1 /\
    h1 !! a = Some (CFiber g1) /\
    nextEffect g1 = None /\ firstEffect g1 = None /\ lastEffect g1 = None /\
    forall qs : list PriorityLevel,
      exists hk : heap,
        clone_each 0%Z ((fun q => (0, q)) <$> qs) h1 =
          Return (replicate (length qs) a) hk /\
        hk = <[a := CFiber (set_pendingWorkPriority (default 5%Z (last qs)) g1)]> h1 /\
        length hk = length h1 /\
        exists fk, hk !! 0 = Some (CFiber fk) /\ alternate fk = Some a.
Proof.
  apply (cloneFiber_repeated_same_alternate 0%Z single_heap 0 span_fiber 5%Z).
  - reflexivity.
  - intros a Ha. discriminate Ha.
Defined.

Lemma lookup_alloc_heap (h : heap) (n m : loc) (c d x : cell) :
  n < length h ->
  (<[n := c]> h ++ [d]) !! m = Some x ->
  (m = length h /\ x = d) \/ (m = n /\ x = c) \/
  (m <> n /\ m < length h /\ h !! m = Some x).
Proof.
  intros Hlen Hm.
  apply lookup_app_Some in Hm as [Hm | [Hge Hm]].
  - apply list_lookup_insert_Some in Hm as [(-> & -> & _) | [Hne Hm]].
    + right. by left.
    + right. right. split_and!; [done | by eapply lookup_lt_Some | done].
  - rewrite length_insert in Hge, Hm. left.
    destruct (m - length h) as [|k] eqn:Hk; simpl in Hm; [|done].
    split; [lia | congruence].
Qed.




(** ** The constructors *)

Lemma js_and_truthy (a : value) (b : value -> value) :
  to_boolean (js_and a b) = to_boolean a && to_boolean (b a).
Proof. unfold js_and. by destruct (to_boolean a) eqn:Ha. Qed.

(** The test of line 220 succeeds on references and on nothing else. *)
Lemma is_object_spec (v : value) :
  is_object v = true <-> exists l, v = VObject l.
Proof.
  split.
  - destruct v; try discriminate. by eexists.
  - by intros [l ->].
Qed.

(** [createFiberFromElementType] on a function and on a string. *)
Lemma createFiberFromElementType_function (NoWork : PriorityLevel)
    (env : environment) (h : heap)
    (id : nat) (proto : value) (k : option string) :
  createFiberFromElementType NoWork env (VFunction id proto) k h =
    Return (length h)
      (h ++ [CFiber (set_type (VFunction id proto)
                       (blank NoWork
                          (if to_boolean proto
                              && to_boolean (get_isReactComponent env h proto)
                           then ClassComponent else IndeterminateComponent) k))]).
Proof.
  unfold createFiberFromElementType, shouldConstruct.
  cbn [typeof String.eqb Ascii.eqb Bool.eqb get_prototype].
  rewrite bind_unfold. cbn beta iota. rewrite js_and_truthy.
  destruct (to_boolean proto && to_boolean (get_isReactComponent env h proto));
    unfold createFiber; rewrite run_alloc; by repeat heap_step.
Qed.

Lemma createFiberFromElementType_string (NoWork : PriorityLevel)
    (env : environment) (h : heap)
    (s : string) (k : option string) :
  createFiberFromElementType NoWork env (VString s) k h =
    Return (length h)
      (h ++ [CFiber (set_type (VString s) (blank NoWork HostComponent k))]).
Proof.
  unfold createFiberFromElementType.
  cbn [typeof String.eqb Ascii.eqb Bool.eqb].
  unfold createFiber. rewrite run_alloc. by repeat heap_step.
Qed.

(** A location past the heap of entry refuses no assignment. *)
Lemma refuses_fresh (env : environment) (h : heap) (name : string) :
  refuses env h (length h) name = false.
Proof.
  unfold refuses. rewrite bool_decide_eq_false_2 by lia. done.
Qed.

(** An object that is not frozen and has no read-only [name] takes the
    assignment. *)
Lemma refuses_writable (env : environment) (h : heap) (l : loc) (name : string) :
  l ∉ env_frozen env -> env_read_only env l name = false ->
  refuses env h l name = false.
Proof.
  intros Hfrozen Hro. unfold refuses.
  rewrite (bool_decide_eq_false_2 (l ∈ env_frozen env)) by done.
  rewrite Hro. by destruct (bool_decide (l < length h)).
Qed.

(** Among the objects of the heap, an assignment is refused by a frozen
    object and by a read-only property. *)
Lemma refuses_allocated (env : environment) (h : heap) (l : loc) (c : cell)
    (name : string) :
  h !! l = Some c ->
  refuses env h l name
  = (bool_decide (l ∈ env_frozen env) || env_read_only env l name).
Proof.
  intros Hl. unfold refuses.
  rewrite bool_decide_eq_true_2; [done | by eapply lookup_lt_Some].
Qed.

(** [createFiberFromElement] after [createFiberFromElementType]: the two
    assignments of lines 205-206 on the object returned, each refused or
    done, or the exception passed on. *)
Lemma createFiberFromElement_after (NoWork : PriorityLevel) (env : environment)
    (element : ReactElement) (p : PriorityLevel) (h h1 : heap) (l : loc)
    (c : cell) :
  createFiberFromElementType NoWork env (el_type element) (el_key element) h
    = Return l h1 ->
  h1 !! l = Some c ->
  createFiberFromElement NoWork env element p h =
    if refuses env h l "pendingProps" then Throw TypeError h1
    else if refuses env h l "pendingWorkPriority"
    then Throw TypeError (<[l := cell_set_pendingProps (el_props element) c]> h1)
    else Return l (<[l := cell_set_pendingWorkPriority p
                             (cell_set_pendingProps (el_props element) c)]> h1).
Proof.
  intros Hrun Hl.
  pose proof (lookup_lt_Some _ _ _ Hl) as Hlen.
  unfold createFiberFromElement. rewrite bind_unfold, Hrun.
  rewrite (run_set_property _ _ _ _ _ _ _ Hl).
  destruct (refuses env h l "pendingProps"); [done|].
  erewrite run_set_property by by apply list_lookup_insert_eq.
  destruct (refuses env h l "pendingWorkPriority"); [done|].
  by rewrite list_insert_insert_eq.
Qed.

(** The fiber [createFiberFromElementType] has just allocated takes both
    assignments. *)
Lemma createFiberFromElement_fresh (NoWork : PriorityLevel) (env : environment)
    (element : ReactElement) (p : PriorityLevel) (h : heap) (c : cell) :
  createFiberFromElementType NoWork env (el_type element) (el_key element) h
    = Return (length h) (h ++ [c]) ->
  createFiberFromElement NoWork env element p h =
    Return (length h)
      (h ++ [cell_set_pendingWorkPriority p
               (cell_set_pendingProps (el_props element) c)]).
Proof.
  intros Hrun.
  rewrite (createFiberFromElement_after NoWork env element p h _ _ c Hrun
             (lookup_last_cell _ _)).
  rewrite !refuses_fresh. by rewrite insert_last_cell.
Qed.

(** An object passed as the type of an element: returned if it takes both
    assignments. *)
Lemma createFiberFromElement_object (NoWork : PriorityLevel) (env : environment)
    (element : ReactElement) (p : PriorityLevel) (h : heap) (l : loc) :
  el_type element = VObject l ->
  createFiberFromElement NoWork env element p h =
    match h !! l with
    | None => Stuck
    | Some c =>
        if bool_decide (l ∈ env_frozen env) || env_read_only env l "pendingProps"
        then Throw TypeError h
        else if bool_decide (l ∈ env_frozen env)
                || env_read_only env l "pendingWorkPriority"
        then Throw TypeError (<[l := cell_set_pendingProps (el_props element) c]> h)
        else Return l (<[l := cell_set_pendingWorkPriority p
                                 (cell_set_pendingProps (el_props element) c)]> h)
    end.
Proof.
  intros Hty.
  assert (createFiberFromElementType NoWork env (el_type element)
            (el_key element) h = Return l h) as Hrun by by rewrite Hty.
  destruct (h !! l) as [c|] eqn:Hl.
  - rewrite (createFiberFromElement_after NoWork env element p h h l c Hrun Hl).
    by rewrite !(refuses_allocated env h l c).
  - unfold createFiberFromElement. rewrite bind_unfold, Hrun.
    rewrite bind_unfold. unfold set_property. by rewrite Hl.
Qed.

Lemma createFiberFromElement_throw (NoWork : PriorityLevel) (env : environment)
    (element : ReactElement) (p : PriorityLevel) (h h1 : heap) (e : js_error) :
  createFiberFromElementType NoWork env (el_type element) (el_key element) h
    = Throw e h1 ->
  createFiberFromElement NoWork env element p h = Throw e h1.
Proof.
  intros Hrun. unfold createFiberFromElement. by rewrite bind_unfold, Hrun.
Qed.

(** C9: [createHostContainerFiber] returns a new fiber of tag
    [HostContainer] with null key and type; and every fiber built by
    [createFiber] has its relational fields, its ref, props, output and
    stateNode null and its priority [NoWork]. *)
Theorem createFiber_fields_empty (NoWork : PriorityLevel) (h : heap) :
  (exists f : Fiber,
      createHostContainerFiber NoWork h = Return (length h) (h ++ [CFiber f]) /\
      tag f = HostContainer /\ key f = None /\ type f = VNull) /\
  (forall (t : TypeOfWork) (k : option string),
      exists f : Fiber,
        createFiber NoWork t k h = Return (length h) (h ++ [CFiber f]) /\
        tag f = t /\ key f = k /\
        return_ f = None /\ child f = None /\ sibling f = None /\
        childInProgress f = None /\ nextEffect f = None /\
        firstEffect f = None /\ lastEffect f = None /\ alternate f = None /\
        ref f = VNull /\ pendingProps f = VNull /\ memoizedProps f = VNull /\
        output f = VNull /\ stateNode f = VNull /\ type f = VNull /\
        pendingWorkPriority f = NoWork).
Proof.
  split.
  - by exists (blank NoWork HostContainer None).
  - intros t k. by exists (blank NoWork t k).
Qed.

(** C5: an element whose type is a function becomes a new fiber of tag
    [ClassComponent] when the prototype of the function marks a React
    component, that is when it is truthy and a truthy [isReactComponent]
    can be read from it, and of tag [IndeterminateComponent] otherwise;
    an element whose type is a string becomes a new fiber of tag
    [HostComponent]; in each case the fiber has the type, key and props of
    the element and the priority passed in.  The prototype may be a plain
    object of the heap, whose property map is read, or any other value (a
    function, a primitive), read through the environment. *)
Theorem createFiberFromElement_kind (NoWork : PriorityLevel)
    (env : environment) (h : heap)
    (k : option string) (props : value) (p : PriorityLevel) :
  (forall (id : nat) (proto : value),
      exists f : Fiber,
        createFiberFromElement NoWork env
          (mkElement (VFunction id proto) k props) p h
          = Return (length h) (h ++ [CFiber f]) /\
        type f = VFunction id proto /\ key f = k /\
        pendingProps f = props /\ pendingWorkPriority f = p /\
        (tag f = ClassComponent \/ tag f = IndeterminateComponent) /\
        (forall (l : loc) (m : gmap string value) (v : value),
            proto = VObject l -> h !! l = Some (CObject m) ->
            m !! "isReactComponent" = Some v -> to_boolean v = true ->
            tag f = ClassComponent) /\
        (forall (l : loc) (m : gmap string value),
            proto = VObject l -> h !! l = Some (CObject m) ->
            to_boolean (default VUndefined (m !! "isReactComponent")) = false ->
            tag f = IndeterminateComponent) /\
        (to_boolean proto = false -> tag f = IndeterminateComponent) /\
        ((forall (l : loc) (m : gmap string value),
             proto = VObject l -> h !! l <> Some (CObject m)) ->
         to_boolean proto = true ->
         (tag f = ClassComponent <->
          to_boolean (default VUndefined
                        (env_readable env proto !! "isReactComponent")) = true))) /\
  (forall s : string,
      exists f : Fiber,
        createFiberFromElement NoWork env (mkElement (VString s) k props) p h
          = Return (length h) (h ++ [CFiber f]) /\
        tag f = HostComponent /\
        type f = VString s /\ key f = k /\
        pendingProps f = props /\ pendingWorkPriority f = p).
Proof.
  split.
  - intros id proto.
    exists (set_pendingWorkPriority p (set_pendingProps props
              (set_type (VFunction id proto)
                 (blank NoWork
                    (if to_boolean proto
                        && to_boolean (get_isReactComponent env h proto)
                     then ClassComponent else IndeterminateComponent) k)))).
    split.
    + by rewrite (createFiberFromElement_fresh NoWork env
                    (mkElement (VFunction id proto) k props) p h _
                    (createFiberFromElementType_function NoWork env h id proto k)).
    + split_and!; try done.
      * simpl. destruct (to_boolean proto && _); [by left | by right].
      * intros l m v -> Hl Hv Htrue. simpl. rewrite Hl, Hv. simpl.
        by rewrite Htrue.
      * intros l m -> Hl Hfalse. simpl. rewrite Hl. by rewrite Hfalse.
      * intros Hfalse. simpl. by rewrite Hfalse.
      * intros Hother Htrue. simpl. rewrite Htrue. simpl.
        assert (get_isReactComponent env h proto
                = default VUndefined
                    (env_readable env proto !! "isReactComponent")) as ->.
        { destruct proto as [| | | | | | |l]; try done. simpl.
          destruct (h !! l) as [[g | m]|] eqn:Hl; try done.
          by destruct (Hother l m). }
        destruct (to_boolean (default VUndefined
                    (env_readable env proto !! "isReactComponent")));
          split; intros Hx; done.
  - intros s.
    exists (set_pendingWorkPriority p (set_pendingProps props
              (set_type (VString s) (blank NoWork HostComponent k)))).
    split.
    + by rewrite (createFiberFromElement_fresh NoWork env
                    (mkElement (VString s) k props) p h _
                    (createFiberFromElementType_string NoWork env h s k)).
    + done.
Qed.

(** C5 at a class component, whose prototype holds [isReactComponent],
    and at a function whose prototype is itself a function from which
    [isReactComponent] can be read: both become [ClassComponent]. *)
Lemma createFiberFromElement_kind_witness :
  (exists f : Fiber,
      createFiberFromElement 0%Z plain_environment
        (mkElement class_component None VNull) 1%Z class_heap
        = Return 2 (class_heap ++ [CFiber f]) /\
      tag f = ClassComponent) /\
  (exists f : Fiber,
      createFiberFromElement 0%Z marked_function_environment
        (mkElement (VFunction 6 (VFunction 5 VUndefined)) None VNull) 1%Z
        class_heap
        = Return 2 (class_heap ++ [CFiber f]) /\
      tag f = ClassComponent).
Proof.
  split.
  - destruct (createFiberFromElement_kind 0%Z plain_environment class_heap
                None VNull 1%Z) as [Hfunction _].
    destruct (Hfunction 9 (VObject 0))
      as (f & Hrun & _ & _ & _ & _ & _ & Hclass & _).
    exists f. split; [exact Hrun|].
    apply (Hclass 0 (<["isReactComponent" := VObject 1]> ∅) (VObject 1));
      reflexivity.
  - destruct (createFiberFromElement_kind 0%Z marked_function_environment
                class_heap None VNull 1%Z) as [Hfunction _].
    destruct (Hfunction 6 (VFunction 5 VUndefined))
      as (f & Hrun & _ & _ & _ & _ & _ & _ & _ & _ & Hother).
    exists f. split; [exact Hrun|].
    apply Hother; [intros l m Hl; discriminate Hl | reflexivity | reflexivity].
Defined.

(** C6, as stated, fails: the plain object at location 2, which is no
    function, no string and no fiber, is accepted as the type of an
    element; [createFiberFromElement] returns it with the two properties
    written, and throws nothing. *)
Lemma createFiberFromElement_accepts_plain_object :
  typeof (VObject 2) <> "function" /\
  typeof (VObject 2) <> "string" /\
  single_heap !! 2 = Some (CObject ∅) /\
  createFiberFromElement 0%Z plain_environment
    (mkElement (VObject 2) None VNull) 1%Z single_heap =
    Return 2
      (<[2 := CObject (<["pendingWorkPriority" := VNumber 1]>
                         (<["pendingProps" := VNull]> ∅))]> single_heap).
Proof.
  split_and!; [done | done | reflexivity |].
  by rewrite (createFiberFromElement_object 0%Z plain_environment
                (mkElement (VObject 2) None VNull) 1%Z single_heap 2 eq_refl).
Qed.

(** C6, amended: an element whose type is not a function, not a string
    and not a non-null object makes [createFiberFromElement] throw
    [Error('Unknown component type: ' + typeof type)] at once, the heap
    untouched. *)
Theorem createFiberFromElement_invalid_type (NoWork : PriorityLevel)
    (env : environment) (h : heap) (element : ReactElement)
    (p : PriorityLevel) :
  typeof (el_type element) <> "function" ->
  typeof (el_type element) <> "string" ->
  ~ (typeof (el_type element) = "object" /\ el_type element <> VNull) ->
  createFiberFromElement NoWork env element p h =
    Throw (Error ("Unknown component type: " +:+ typeof (el_type element))) h.
Proof.
  intros Hfun Hstr Hobj.
  apply createFiberFromElement_throw.
  unfold createFiberFromElementType.
  destruct (el_type element) eqn:Htype; try done.
  exfalso. apply Hobj. by split.
Qed.

(** C6, amended, at the type [42]. *)
Lemma createFiberFromElement_invalid_type_witness :
  createFiberFromElement 0%Z plain_environment
    (mkElement (VNumber 42) None VNull) 1%Z single_heap =
    Throw (Error "Unknown component type: number") single_heap.
Proof.
  apply (createFiberFromElement_invalid_type 0%Z plain_environment single_heap
           (mkElement (VNumber 42) None VNull) 1%Z).
  - simpl. discriminate.
  - simpl. discriminate.
  - simpl. intros [Hobj _]. discriminate Hobj.
Defined.

(** C8: a yield becomes a new fiber of tag [YieldComponent] whose
    [pendingProps] is a new object without properties and whose
    [pendingWorkPriority] is [NoWork], whatever priority is passed in. *)
Theorem createFiberFromYield_no_priority (NoWork : PriorityLevel) (h : heap)
    (yieldNode : ReactYield) (p : PriorityLevel) :
  exists f : Fiber,
    createFiberFromYield NoWork yieldNode p h =
      Return (length h) (h ++ [CFiber f; CObject ∅]) /\
    tag f = YieldComponent /\ key f = y_key yieldNode /\
    pendingProps f = VObject (S (length h)) /\
    pendingWorkPriority f = NoWork.
Proof.
  exists (set_pendingProps (VObject (S (length h)))
            (blank NoWork YieldComponent (y_key yieldNode))).
  split; [|done].
  unfold createFiberFromYield, createFiber.
  rewrite !run_alloc.
  erewrite run_set_field by (apply lookup_old_cell, lookup_last_cell).
  rewrite insert_app_l by (rewrite length_app; simpl; lia).
  rewrite insert_last_cell, <- app_assoc, length_app, Nat.add_1_r. done.
Qed.

(** The example call: where it is, and what is frozen after it. *)
Lemma frozen_call_lookup :
  frozen_call.2.1 !! frozen_call.1
  = Some (CObject
            (<["props" := VObject 3]>
            (<["handler" := VFunction 4 VUndefined]>
            (<["children" := VObject 2]>
            (<["key" := VString "k"]>
            (<["$$typeof" := VSymbol "react.call"]> ∅)))))).
Proof. reflexivity. Qed.

Lemma frozen_call_frozen :
  frozen_call.2.2 = {[frozen_call.1]} ∪ ({[3]} ∪ ∅).
Proof.
  unfold frozen_call, unstable_createCall. cbn [fst snd object_freeze].
  unfold read_property. rewrite lookup_last_cell.
  by rewrite lookup_insert_eq.
Qed.

(** C10, as stated, fails: an object that [unstable_createCall] has built
    and frozen in development mode, passed as the type of an element,
    makes the assignment of line 205 throw a [TypeError]; the object is
    not returned and nothing is written. *)
Lemma createFiberFromElement_frozen_object_throws :
  typeof (VObject frozen_call.1) = "object" /\
  frozen_call.1 ∈ frozen_call.2.2 /\
  createFiberFromElement 0%Z
    (mkEnvironment (fun _ => ∅) frozen_call.2.2 (fun _ _ => false))
    (mkElement (VObject frozen_call.1) None (VObject 3)) 4%Z frozen_call.2.1
  = Throw TypeError frozen_call.2.1.
Proof.
  assert (frozen_call.1 ∈ frozen_call.2.2) as Hfrozen.
  { rewrite frozen_call_frozen. apply elem_of_union. left.
    by apply elem_of_singleton. }
  split; [reflexivity|]. split; [exact Hfrozen|].
  rewrite (createFiberFromElement_object 0%Z _
             (mkElement (VObject frozen_call.1) None (VObject 3)) 4%Z
             frozen_call.2.1 frozen_call.1 eq_refl).
  rewrite frozen_call_lookup. cbn [env_frozen].
  by rewrite bool_decide_eq_true_2.
Qed.

(** C10, amended: an element whose type is a reference to an object of
    the heap, fiber or not, that is not frozen and refuses neither an
    assignment to [pendingProps] nor one to [pendingWorkPriority], makes
    [createFiberFromElement] return that very reference; nothing is
    allocated, no other object changes, and the object has its
    [pendingProps] overwritten with the props of the element and its
    [pendingWorkPriority] with the priority passed in, everything else in
    it being as it was. *)
Theorem createFiberFromElement_object_passthrough (NoWork : PriorityLevel)
    (env : environment) (h : heap) (l : loc) (c : cell) (k : option string)
    (props : value) (p : PriorityLevel) :
  h !! l = Some c ->
  l ∉ env_frozen env ->
  env_read_only env l "pendingProps" = false ->
  env_read_only env l "pendingWorkPriority" = false ->
  exists h' : heap,
    createFiberFromElement NoWork env (mkElement (VObject l) k props) p h
      = Return l h' /\
    length h' = length h /\
    (forall l' : loc, l' <> l -> h' !! l' = h !! l') /\
    (forall f : Fiber, c = CFiber f ->
       exists f' : Fiber,
         h' !! l = Some (CFiber f') /\
         pendingProps f' = props /\ pendingWorkPriority f' = p /\
         tag f' = tag f /\ key f' = key f /\ type f' = type f /\
         stateNode f' = stateNode f /\ return_ f' = return_ f /\
         child f' = child f /\ sibling f' = sibling f /\ ref f' = ref f /\
         memoizedProps f' = memoizedProps f /\ output f' = output f /\
         nextEffect f' = nextEffect f /\ firstEffect f' = firstEffect f /\
         lastEffect f' = lastEffect f /\ alternate f' = alternate f /\
         childInProgress f' = childInProgress f) /\
    (forall m : gmap string value, c = CObject m ->
       exists m' : gmap string value,
         h' !! l = Some (CObject m') /\
         m' !! "pendingProps" = Some props /\
         m' !! "pendingWorkPriority" = Some (VNumber p) /\
         forall name : string,
           name <> "pendingProps" -> name <> "pendingWorkPriority" ->
           m' !! name = m !! name).
Proof.
  intros Hl Hfrozen Hpp Hpwp.
  pose proof (lookup_lt_Some _ _ _ Hl) as Hlen.
  exists (<[l := cell_set_pendingWorkPriority p (cell_set_pendingProps props c)]> h).
  split_and!.
  - rewrite (createFiberFromElement_object NoWork env
               (mkElement (VObject l) k props) p h l eq_refl).
    rewrite Hl, Hpp, Hpwp.
    by rewrite (bool_decide_eq_false_2 (l ∈ env_frozen env)).
  - by rewrite length_insert.
  - intros l' Hne. by rewrite list_lookup_insert_ne.
  - intros f ->. eexists. split; [by apply list_lookup_insert_eq|].
    by destruct f.
  - intros m ->. eexists. split; [by apply list_lookup_insert_eq|].
    split_and!.
    + rewrite lookup_insert_ne by done. by rewrite lookup_insert_eq.
    + by rewrite lookup_insert_eq.
    + intros name Hn1 Hn2. by rewrite !lookup_insert_ne.
Qed.

(** C10, amended, at an element whose type is the fiber at location 1. *)
Lemma createFiberFromElement_object_passthrough_witness :
  exists h' : heap,
    createFiberFromElement 0%Z plain_environment
      (mkElement (VObject 1) None (VObject 3)) 4%Z paired_heap = Return 1 h' /\
    length h' = length paired_heap /\
    (forall l' : loc, l' <> 1 -> h' !! l' = paired_heap !! l') /\
    (forall f : Fiber, CFiber stale_fiber = CFiber f ->
       exists f' : Fiber,
         h' !! 1 = Some (CFiber f') /\
         pendingProps f' = VObject 3 /\ pendingWorkPriority f' = 4%Z /\
         tag f' = tag f /\ key f' = key f /\ type f' = type f /\
         stateNode f' = stateNode f /\ return_ f' = return_ f /\
         child f' = child f /\ sibling f' = sibling f /\ ref f' = ref f /\
         memoizedProps f' = memoizedProps f /\ output f' = output f /\
         nextEffect f' = nextEffect f /\ firstEffect f' = firstEffect f /\
         lastEffect f' = lastEffect f /\ alternate f' = alternate f /\
         childInProgress f' = childInProgress f) /\
    (forall m : gmap string value, CFiber stale_fiber = CObject m ->
       exists m' : gmap string value,
         h' !! 1 = Some (CObject m') /\
         m' !! "pendingProps" = Some (VObject 3) /\
         m' !! "pendingWorkPriority" = Some (VNumber 4) /\
         forall name : string,
           name <> "pendingProps" -> name <> "pendingWorkPriority" ->
           m' !! name = m !! name).
Proof.
  apply (createFiberFromElement_object_passthrough 0%Z plain_environment
           paired_heap 1 (CFiber stale_fiber) None (VObject 3) 4%Z).
  - reflexivity.
  - apply not_elem_of_empty.
  - reflexivity.
  - reflexivity.
Defined.

(** ** Further properties of the constructors *)

(** The three outcomes of [createFiberFromElementType]. *)
Lemma createFiberFromElementType_cases (NoWork : PriorityLevel)
    (env : environment) (h : heap) (t : value) (k : option string) :
  (exists f : Fiber,
      (typeof t = "function" \/ typeof t = "string") /\
      createFiberFromElementType NoWork env t k h
        = Return (length h) (h ++ [CFiber f]) /\
      type f = t /\ key f = k /\ pendingProps f = VNull /\
      pendingWorkPriority f = NoWork /\ alternate f = None)
  \/ (exists l : loc,
        t = VObject l /\ createFiberFromElementType NoWork env t k h = Return l h)
  \/ ((typeof t <> "function" /\ typeof t <> "string" /\
       forall l : loc, t <> VObject l) /\
      createFiberFromElementType NoWork env t k h
        = Throw (Error ("Unknown component type: " +:+ typeof t)) h).
Proof.
  destruct t as [| | b | z | s | d | id proto | l].
  - right. right. by split_and!.
  - right. right. by split_and!.
  - right. right. by split_and!.
  - right. right. by split_and!.
  - left. eexists. split; [by right|]. split.
    + apply createFiberFromElementType_string.
    + done.
  - right. right. by split_and!.
  - left. eexists. split; [by left|]. split.
    + apply createFiberFromElementType_function.
    + done.
  - right. left. by exists l.
Qed.

(** X1: [createFiberFromElementType] never modifies an object of the heap
    and never gets stuck.  On a function or a string it appends one fiber,
    with the type and key given, null [pendingProps], priority [NoWork]
    and no alternate; on an object it returns the object with the heap as
    it was; on anything else it throws with the heap as it was. *)
Theorem createFiberFromElementType_outcomes (NoWork : PriorityLevel)
    (env : environment) (h : heap) (t : value) (k : option string) :
  (exists f : Fiber,
      (typeof t = "function" \/ typeof t = "string") /\
      createFiberFromElementType NoWork env t k h
        = Return (length h) (h ++ [CFiber f]) /\
      type f = t /\ key f = k /\ pendingProps f = VNull /\
      pendingWorkPriority f = NoWork /\ alternate f = None)
  \/ (exists l : loc,
        t = VObject l /\ createFiberFromElementType NoWork env t k h = Return l h)
  \/ ((typeof t <> "function" /\ typeof t <> "string" /\
       forall l : loc, t <> VObject l) /\
      createFiberFromElementType NoWork env t k h
        = Throw (Error ("Unknown component type: " +:+ typeof t)) h).
Proof.
  destruct t as [| | b | z | s | d | id proto | l].
  - right. right. by split_and!.
  - right. right. by split_and!.
  - right. right. by split_and!.
  - right. right. by split_and!.
  - left. eexists. split; [by right|]. split.
    + apply createFiberFromElementType_string.
    + done.
  - right. right. by split_and!.
  - left. eexists. split; [by left|]. split.
    + apply createFiberFromElementType_function.
    + done.
  - right. left. by exists l.
Qed.

(** X2: [createFiberFromElement] throws in two situations and no other.
    When the type of the element is neither a function, nor a string, nor
    an object, it throws the [Error] that names the [typeof] of the type,
    the heap as it was.  When the type is an object that refuses one of
    the two assignments of lines 205-206, because it is frozen or because
    the property is read-only, it throws a [TypeError]: with the heap as
    it was if [pendingProps] is refused, and with [pendingProps] already
    written if only [pendingWorkPriority] is. *)
Theorem createFiberFromElement_throws_iff (NoWork : PriorityLevel)
    (env : environment) (h h' : heap) (element : ReactElement)
    (p : PriorityLevel) (e : js_error) :
  createFiberFromElement NoWork env element p h = Throw e h' <->
  ((typeof (el_type element) <> "function" /\
    typeof (el_type element) <> "string" /\
    forall l : loc, el_type element <> VObject l) /\
   e = Error ("Unknown component type: " +:+ typeof (el_type element)) /\
   h' = h)
  \/ (exists (l : loc) (c : cell),
        el_type element = VObject l /\ h !! l = Some c /\ e = TypeError /\
        ((((l ∈ env_frozen env) \/ env_read_only env l "pendingProps" = true) /\
          h' = h)
         \/ ((l ∉ env_frozen env) /\
             env_read_only env l "pendingProps" = false /\
             env_read_only env l "pendingWorkPriority" = true /\
             h' = <[l := cell_set_pendingProps (el_props element) c]> h))).
Proof.
  destruct (createFiberFromElementType_cases NoWork env h
              (el_type element) (el_key element))
    as [(f & Hkind & Hty & _) | [(l & Hl & Hty) | [Hprim Hty]]].
  - rewrite (createFiberFromElement_fresh NoWork env element p h _ Hty).
    split; [done|].
    intros [((Hfun & Hstr & _) & _) | (l & c & Hl & _)].
    + by destruct Hkind.
    + rewrite Hl in Hkind. by destruct Hkind.
  - rewrite (createFiberFromElement_object NoWork env element p h l Hl).
    split.
    + intros Hrun. right.
      destruct (h !! l) as [c|] eqn:Hc; [|done].
      exists l, c. split; [done|]. split; [done|].
      destruct (decide (l ∈ env_frozen env)) as [Hin | Hnin].
      * rewrite (bool_decide_eq_true_2 _ Hin) in Hrun. simpl in Hrun.
        injection Hrun as <- <-. split; [done|]. left. split; [by left | done].
      * rewrite (bool_decide_eq_false_2 _ Hnin) in Hrun. simpl in Hrun.
        destruct (env_read_only env l "pendingProps") eqn:Hpp.
        -- injection Hrun as <- <-. split; [done|].
           left. split; [by right | done].
        -- destruct (env_read_only env l "pendingWorkPriority") eqn:Hpwp;
             [|done].
           injection Hrun as <- <-. split; [done|]. right. by split_and!.
    + intros [((_ & _ & Hobj) & _) | (l' & c & Hl' & Hc & -> & Hwhy)].
      { by destruct (Hobj l). }
      assert (l' = l) as -> by congruence. rewrite Hc.
      destruct Hwhy as [[[Hin | Hpp] ->] | (Hnin & Hpp & Hpwp & ->)].
      * by rewrite (bool_decide_eq_true_2 _ Hin).
      * rewrite Hpp. by rewrite orb_true_r.
      * by rewrite (bool_decide_eq_false_2 _ Hnin), Hpp, Hpwp.
  - rewrite (createFiberFromElement_throw NoWork env element p h h _ Hty).
    split.
    + intros [= <- <-]. by left.
    + intros [(_ & -> & ->) | (l & c & Hl & _)]; [done|].
      destruct Hprim as (_ & _ & Hobj). by destruct (Hobj l).
Qed.

(** X3: when [createFiberFromElement] returns, the object returned is the
    only one it may have modified: every other object of the heap is as it
    was, and no object is lost. *)
Theorem createFiberFromElement_frame (NoWork : PriorityLevel)
    (env : environment) (h h' : heap)
    (element : ReactElement) (p : PriorityLevel) (l : loc) :
  createFiberFromElement NoWork env element p h = Return l h' ->
  length h <= length h' /\
  forall m : loc, m <> l -> m < length h -> h' !! m = h !! m.
Proof.
  destruct (createFiberFromElementType_cases NoWork env h
              (el_type element) (el_key element))
    as [(f & _ & Hty & _) | [(l' & Hl & Hty) | [Hprim Hty]]].
  - rewrite (createFiberFromElement_fresh NoWork env element p h _ Hty).
    intros [= <- <-]. split.
    + rewrite length_app. lia.
    + intros m _ Hm. by rewrite lookup_app_l.
  - rewrite (createFiberFromElement_object NoWork env element p h l' Hl).
    destruct (h !! l') as [c|] eqn:Hc; [|done].
    destruct (_ || _); [done|]. destruct (_ || _); [done|].
    intros [= <- <-]. split.
    + by rewrite length_insert.
    + intros m Hne _. by rewrite list_lookup_insert_ne.
  - by rewrite (createFiberFromElement_throw NoWork env element p h h _ Hty).
Qed.

(** X3 at a host element built on the example heap. *)
Lemma createFiberFromElement_frame_witness :
  length single_heap <= length (single_heap ++
    [CFiber (set_pendingWorkPriority 2%Z (set_pendingProps (VObject 3)
       (set_type (VString "div") (blank 0%Z HostComponent (Some "k")))))]) /\
  forall m : loc, m <> 4 -> m < length single_heap ->
    (single_heap ++
      [CFiber (set_pendingWorkPriority 2%Z (set_pendingProps (VObject 3)
         (set_type (VString "div") (blank 0%Z HostComponent (Some "k")))))])
      !! m = single_heap !! m.
Proof.
  apply (createFiberFromElement_frame 0%Z plain_environment single_heap _
           (mkElement (VString "div") (Some "k") (VObject 3)) 2%Z 4).
  reflexivity.
Defined.

(** X4: from a coroutine object whose [key] is null or a string,
    [createFiberFromCoroutine] builds one new fiber of tag
    [CoroutineComponent] whose type is the handler of the coroutine, whose
    [pendingProps] is the coroutine object itself and whose priority is
    the one passed in; the coroutine object and the rest of the heap are
    as they were. *)
Theorem createFiberFromCoroutine_fields (NoWork : PriorityLevel) (h : heap)
    (coroutine : loc) (m : gmap string value) (kv : value)
    (k : option string) (p : PriorityLevel) :
  h !! coroutine = Some (CObject m) ->
  m !! "key" = Some kv ->
  (kv = VNull /\ k = None \/ exists s, kv = VString s /\ k = Some s) ->
  exists f : Fiber,
    createFiberFromCoroutine NoWork coroutine p h
      = Return (length h) (h ++ [CFiber f]) /\
    tag f = CoroutineComponent /\ key f = k /\
    type f = default VUndefined (m !! "handler") /\
    pendingProps f = VObject coroutine /\
    pendingWorkPriority f = p /\
    alternate f = None /\ stateNode f = VNull.
Proof.
  intros Hc Hkey Hk.
  exists (set_pendingWorkPriority p (set_pendingProps (VObject coroutine)
            (set_type (default VUndefined (m !! "handler"))
               (blank NoWork CoroutineComponent k)))).
  split; [|done].
  unfold createFiberFromCoroutine.
  rewrite bind_unfold. unfold get_object_property at 1. rewrite Hc, Hkey.
  cbn [default from_option id].
  assert (as_key kv h = Return k h) as Hask.
  { by destruct Hk as [[-> ->] | (s & -> & ->)]. }
  rewrite bind_unfold, Hask. unfold createFiber. rewrite run_alloc.
  rewrite bind_unfold. unfold get_object_property.
  rewrite (lookup_old_cell _ _ _ _ Hc).
  by repeat heap_step.
Qed.

(** X4 at the example coroutine. *)
Lemma createFiberFromCoroutine_fields_witness :
  exists f : Fiber,
    createFiberFromCoroutine 0%Z 0 3%Z coroutine_heap
      = Return (length coroutine_heap) (coroutine_heap ++ [CFiber f]) /\
    tag f = CoroutineComponent /\ key f = Some "c" /\
    type f = default VUndefined
               ((<["handler" := VFunction 4 VUndefined]>
                   (<["key" := VString "c"]> (∅ : gmap string value)))
                !! "handler") /\
    pendingProps f = VObject 0 /\
    pendingWorkPriority f = 3%Z /\
    alternate f = None /\ stateNode f = VNull.
Proof.
  apply (createFiberFromCoroutine_fields 0%Z coroutine_heap 0
           (<["handler" := VFunction 4 VUndefined]>
              (<["key" := VString "c"]> ∅))
           (VString "c") (Some "c") 3%Z).
  - reflexivity.
  - vm_compute. reflexivity.
  - right. exists "c". split; reflexivity.
Defined.

(** ** Further properties of [cloneFiber] *)

(** X5: [cloneFiber n p] modifies no object but the alternate it returns,
    except that it stores a new alternate in [n.alternate]: every other
    object is as it was, and [n] itself, when it is not its own alternate,
    changes in its [alternate] field at most. *)
Theorem cloneFiber_frame (NoWork : PriorityLevel) (h : heap) (n : loc)
    (f : Fiber) (p : PriorityLevel) :
  h !! n = Some (CFiber f) ->
  (forall a, alternate f = Some a -> exists g, h !! a = Some (CFiber g)) ->
  exists (a : loc) (h' : heap),
    cloneFiber NoWork n p h = Return a h' /\
    (forall m : loc, m <> n -> m <> a -> h' !! m = h !! m) /\
    (a <> n -> h' !! n = Some (CFiber (set_alternate (Some a) f))).
Proof.
  intros Hn Htyped.
  pose proof (lookup_lt_Some _ _ _ Hn) as Hlen.
  destruct (cloneFiber_cases NoWork h n f p Hn Htyped)
    as [(a & g & Halt & Ha & Hrun) | [Halt Hrun]].
  - exists a, (<[a := CFiber (refreshed f g p)]> h). split_and!.
    + done.
    + intros m _ Hma. by rewrite list_lookup_insert_ne.
    + intros Hne. rewrite list_lookup_insert_ne by done.
      rewrite <- Halt.
      replace (set_alternate (alternate f) f) with f by by destruct f.
      exact Hn.
  - eexists _, _. split_and!.
    + exact Hrun.
    + intros m Hmn Hma.
      destruct (decide (m < length h)) as [Hlt | Hge].
      * rewrite lookup_app_l by by rewrite length_insert.
        by rewrite list_lookup_insert_ne.
      * rewrite !lookup_ge_None_2; [done | lia |].
        rewrite length_app, length_insert. simpl. lia.
    + intros _. by apply lookup_relinked.
Qed.

(** X5 at a fiber that has an alternate. *)
Lemma cloneFiber_frame_witness :
  exists (a : loc) (h' : heap),
    cloneFiber 0%Z 0 5%Z paired_heap = Return a h' /\
    (forall m : loc, m <> 0 -> m <> a -> h' !! m = paired_heap !! m) /\
    (a <> 0 ->
     h' !! 0 = Some (CFiber (set_alternate (Some a)
                               (set_alternate (Some 1) span_fiber)))).
Proof.
  apply (cloneFiber_frame 0%Z paired_heap 0
           (set_alternate (Some 1) span_fiber) 5%Z).
  - reflexivity.
  - intros a Ha. injection Ha as <-. exists stale_fiber. reflexivity.
Defined.

(** X6: on both paths the fiber returned by [cloneFiber n p] has the
    [stateNode], [child], [childInProgress], [sibling] and [pendingProps]
    that [n] had when the call was made, and the priority [p]. *)
Theorem cloneFiber_copies_fields (NoWork : PriorityLevel) (h : heap)
    (n : loc) (f : Fiber) (p : PriorityLevel) :
  h !! n = Some (CFiber f) ->
  (forall a, alternate f = Some a -> exists g, h !! a = Some (CFiber g)) ->
  exists (a : loc) (h' : heap) (fa : Fiber),
    cloneFiber NoWork n p h = Return a h' /\
    h' !! a = Some (CFiber fa) /\
    stateNode fa = stateNode f /\ child fa = child f /\
    childInProgress fa = childInProgress f /\ sibling fa = sibling f /\
    pendingProps fa = pendingProps f /\ pendingWorkPriority fa = p.
Proof.
  intros Hn Htyped.
  destruct (cloneFiber_cases NoWork h n f p Hn Htyped)
    as [(a & g & Halt & Ha & Hrun) | [Halt Hrun]].
  - exists a, (<[a := CFiber (refreshed f g p)]> h), (refreshed f g p).
    split; [done|]. split; [|done].
    apply list_lookup_insert_eq. by eapply lookup_lt_Some.
  - eexists _, _, (allocated f n p). split; [exact Hrun|]. split; [|done].
    apply lookup_allocated.
Qed.

(** X6 at a fiber whose alternate is out of date. *)
Lemma cloneFiber_copies_fields_witness :
  exists (a : loc) (h' : heap) (fa : Fiber),
    cloneFiber 0%Z 0 5%Z paired_heap = Return a h' /\
    h' !! a = Some (CFiber fa) /\
    stateNode fa = stateNode (set_alternate (Some 1) span_fiber) /\
    child fa = child (set_alternate (Some 1) span_fiber) /\
    childInProgress fa = childInProgress (set_alternate (Some 1) span_fiber) /\
    sibling fa = sibling (set_alternate (Some 1) span_fiber) /\
    pendingProps fa = pendingProps (set_alternate (Some 1) span_fiber) /\
    pendingWorkPriority fa = 5%Z.
Proof.
  apply (cloneFiber_copies_fields 0%Z paired_heap 0
           (set_alternate (Some 1) span_fiber) 5%Z).
  - reflexivity.
  - intros a Ha. injection Ha as <-. exists stale_fiber. reflexivity.
Defined.

(** X7: the first clone of a fiber without alternate allocates exactly
    one object, a fiber with the tag, key and type of the original; its
    [return], [memoizedProps] and [output] are null, not those of the
    original. *)
Theorem cloneFiber_new_alternate (NoWork : PriorityLevel) (h : heap)
    (n : loc) (f : Fiber) (p : PriorityLevel) :
  h !! n = Some (CFiber f) ->
  alternate f = None ->
  exists (h' : heap) (fa : Fiber),
    cloneFiber NoWork n p h = Return (length h) h' /\
    length h' = S (length h) /\
    h' !! length h = Some (CFiber fa) /\
    tag fa = tag f /\ key fa = key f /\ type fa = type f /\
    return_ fa = None /\ memoizedProps fa = VNull /\ output fa = VNull.
Proof.
  intros Hn Halt.
  eexists _, (allocated f n p). split_and!.
  - by apply cloneFiber_alloc.
  - rewrite length_app, length_insert. simpl. lia.
  - apply lookup_allocated.
  - done.
  - done.
  - done.
  - done.
  - done.
  - done.
Qed.

(** X7 at the example fiber. *)
Lemma cloneFiber_new_alternate_witness :
  exists (h' : heap) (fa : Fiber),
    cloneFiber 0%Z 0 5%Z single_heap = Return (length single_heap) h' /\
    length h' = S (length single_heap) /\
    h' !! length single_heap = Some (CFiber fa) /\
    tag fa = tag span_fiber /\ key fa = key span_fiber /\
    type fa = type span_fiber /\
    return_ fa = None /\ memoizedProps fa = VNull /\ output fa = VNull.
Proof.
  apply (cloneFiber_new_alternate 0%Z single_heap 0 span_fiber 5%Z).
  - reflexivity.
  - reflexivity.
Defined.

(** X8: a clone that finds an alternate allocates nothing and leaves the
    [tag], [key], [type], [return], [memoizedProps], [output] and
    [alternate] of that alternate as they were: they are not taken from
    the fiber cloned. *)
Theorem cloneFiber_reused_alternate (NoWork : PriorityLevel) (h : heap)
    (n a : loc) (f g : Fiber) (p : PriorityLevel) :
  h !! n = Some (CFiber f) ->
  alternate f = Some a ->
  h !! a = Some (CFiber g) ->
  exists (h' : heap) (fa : Fiber),
    cloneFiber NoWork n p h = Return a h' /\
    length h' = length h /\
    h' !! a = Some (CFiber fa) /\
    tag fa = tag g /\ key fa = key g /\ type fa = type g /\
    return_ fa = return_ g /\ memoizedProps fa = memoizedProps g /\
    output fa = output g /\ alternate fa = alternate g.
Proof.
  intros Hn Halt Ha.
  exists (<[a := CFiber (refreshed f g p)]> h), (refreshed f g p). split_and!.
  - by apply cloneFiber_refresh with (f := f).
  - by rewrite length_insert.
  - apply list_lookup_insert_eq. by eapply lookup_lt_Some.
  - done.
  - done.
  - done.
  - done.
  - done.
  - done.
  - done.
Qed.

(** X8 at the example pair. *)
Lemma cloneFiber_reused_alternate_witness :
  exists (h' : heap) (fa : Fiber),
    cloneFiber 0%Z 0 5%Z paired_heap = Return 1 h' /\
    length h' = length paired_heap /\
    h' !! 1 = Some (CFiber fa) /\
    tag fa = tag stale_fiber /\ key fa = key stale_fiber /\
    type fa = type stale_fiber /\
    return_ fa = return_ stale_fiber /\
    memoizedProps fa = memoizedProps stale_fiber /\
    output fa = output stale_fiber /\ alternate fa = alternate stale_fiber.
Proof.
  apply (cloneFiber_reused_alternate 0%Z paired_heap 0 1
           (set_alternate (Some 1) span_fiber) stale_fiber 5%Z).
  - reflexivity.
  - reflexivity.
  - reflexivity.
Defined.

(** The first clone under a symmetric pairing: the two fibers are linked
    both ways and in sync. *)
Lemma cloneFiber_first_symmetric (NoWork : PriorityLevel) (h : heap) (n : loc)
    (f : Fiber) (p : PriorityLevel) :
  h !! n = Some (CFiber f) ->
  (forall a, alternate f = Some a ->
             exists g, h !! a = Some (CFiber g) /\ alternate g = Some n) ->
  exists (a : loc) (h1 : heap) (fn g1 : Fiber),
    cloneFiber NoWork n p h = Return a h1 /\
    h1 !! n = Some (CFiber fn) /\ alternate fn = Some a /\
    h1 !! a = Some (CFiber g1) /\ alternate g1 = Some n /\
    in_sync fn g1.
Proof.
  intros Hn Hsym.
  pose proof (lookup_lt_Some _ _ _ Hn) as Hlen.
  destruct (alternate f) as [a|] eqn:Halt.
  - destruct (Hsym a eq_refl) as (g & Ha & Hback).
    pose proof (lookup_lt_Some _ _ _ Ha) as Hlena.
    exists a, (<[a := CFiber (refreshed f g p)]> h).
    destruct (decide (a = n)) as [-> | Hne].
    + assert (g = f) as -> by congruence.
      exists (refreshed f f p), (refreshed f f p).
      rewrite list_lookup_insert_eq by done.
      split; [by apply cloneFiber_refresh with (f := f)|]. by split_and!.
    + exists f, (refreshed f g p).
      rewrite list_lookup_insert_ne by done.
      rewrite list_lookup_insert_eq by done.
      split; [by apply cloneFiber_refresh with (f := f)|]. by split_and!.
  - exists (length h), (<[n := CFiber (set_alternate (Some (length h)) f)]> h
                        ++ [CFiber (allocated f n p)]),
      (set_alternate (Some (length h)) f), (allocated f n p).
    rewrite lookup_relinked by done. rewrite lookup_allocated.
    split; [by apply cloneFiber_alloc|].
    split_and!; try done; by destruct f.
Qed.

(** X9: the double buffer swaps back.  After [cloneFiber n p] has
    returned [a], [cloneFiber a q] returns [n] itself, and the heap differs
    only in that [n] now has priority [q] and an empty effect list. *)
Theorem cloneFiber_back_and_forth (NoWork : PriorityLevel) (h : heap)
    (n : loc) (f : Fiber) (p q : PriorityLevel) :
  h !! n = Some (CFiber f) ->
  (forall a, alternate f = Some a ->
             exists g, h !! a = Some (CFiber g) /\ alternate g = Some n) ->
  exists (a : loc) (h1 : heap) (fn : Fiber),
    cloneFiber NoWork n p h = Return a h1 /\
    h1 !! n = Some (CFiber fn) /\
    cloneFiber NoWork a q h1 = Return n (<[n := CFiber (settled q fn)]> h1).
Proof.
  intros Hn Hsym.
  destruct (cloneFiber_first_symmetric NoWork h n f p Hn Hsym)
    as (a & h1 & fn & g1 & Hrun & Hn1 & Halt1 & Ha1 & Hback & Hs).
  exists a, h1, fn. split_and!; try done.
  apply cloneFiber_again with (f := g1); try done.
  destruct Hs as (? & ? & ? & ? & ?). by split_and!.
Qed.

(** X9 at a fiber without alternate. *)
Lemma cloneFiber_back_and_forth_witness :
  exists (a : loc) (h1 : heap) (fn : Fiber),
    cloneFiber 0%Z 0 5%Z single_heap = Return a h1 /\
    h1 !! 0 = Some (CFiber fn) /\
    cloneFiber 0%Z a 6%Z h1 = Return 0 (<[0 := CFiber (settled 6%Z fn)]> h1).
Proof.
  apply (cloneFiber_back_and_forth 0%Z single_heap 0 span_fiber 5%Z 6%Z).
  - reflexivity.
  - intros a Ha. discriminate Ha.
Defined.

(** Overwriting a fiber without touching its [alternate] keeps the
    pairing of the heap. *)
Lemma pairing_symmetric_update (h : heap) (a : loc) (g g' : Fiber) :
  pairing_symmetric h ->
  h !! a = Some (CFiber g) ->
  alternate g' = alternate g ->
  pairing_symmetric (<[a := CFiber g']> h).
Proof.
  intros Hsym Ha Halt m m' fm Hm Hmm'.
  pose proof (lookup_lt_Some _ _ _ Ha) as Hlen.
  assert (exists fm0, h !! m = Some (CFiber fm0) /\ alternate fm0 = Some m')
    as (fm0 & Hm0 & Hmm0).
  { apply list_lookup_insert_Some in Hm as [(<- & [= <-] & _) | [_ Hm]].
    - exists g. split; [done | congruence].
    - by exists fm. }
  destruct (Hsym m m' fm0 Hm0 Hmm0) as (fm' & Hm' & Hback).
  destruct (decide (m' = a)) as [-> | Hne].
  - exists g'. rewrite list_lookup_insert_eq by done.
    split; [done|]. assert (fm' = g) as -> by congruence. congruence.
  - exists fm'. by rewrite list_lookup_insert_ne.
Qed.

(** Linking a new alternate to a fiber that had none keeps the pairing of
    the heap. *)
Lemma pairing_symmetric_link (h : heap) (n : loc) (f fa : Fiber) :
  pairing_symmetric h ->
  h !! n = Some (CFiber f) ->
  alternate f = None ->
  alternate fa = Some n ->
  pairing_symmetric
    (<[n := CFiber (set_alternate (Some (length h)) f)]> h ++ [CFiber fa]).
Proof.
  intros Hsym Hn Hnone Hfa m m' fm Hm Hmm'.
  pose proof (lookup_lt_Some _ _ _ Hn) as Hlen.
  apply lookup_alloc_heap in Hm
    as [[-> [= ->]] | [[-> [= ->]] | (Hnm & Hltm & Hm)]]; [| | | done].
  - assert (m' = n) as -> by congruence.
    eexists. rewrite lookup_relinked by done. split; [done|]. by destruct f.
  - assert (m' = length h) as -> by (destruct f; simpl in *; congruence).
    exists fa. by rewrite lookup_allocated.
  - destruct (Hsym m m' fm Hm Hmm') as (fm' & Hm' & Hback).
    pose proof (lookup_lt_Some _ _ _ Hm') as Hltm'.
    assert (m' <> n) by (intros ->; congruence).
    exists fm'. split; [|done].
    rewrite lookup_app_l by by rewrite length_insert.
    by rewrite list_lookup_insert_ne.
Qed.

(** One clone keeps the pairing of the heap. *)
Lemma cloneFiber_keeps_pairing_core (NoWork : PriorityLevel) (h : heap)
    (n : loc) (f : Fiber) (p : PriorityLevel) :
  pairing_symmetric h ->
  h !! n = Some (CFiber f) ->
  exists (a : loc) (h' : heap),
    cloneFiber NoWork n p h = Return a h' /\
    pairing_symmetric h' /\
    is_fiber h' a /\
    (forall l, is_fiber h l -> is_fiber h' l) /\
    length h <= length h' <= S (length h).
Proof.
  intros Hsym Hn.
  pose proof (lookup_lt_Some _ _ _ Hn) as Hlen.
  destruct (alternate f) as [a|] eqn:Halt.
  - destruct (Hsym n a f Hn Halt) as (g & Ha & Hback).
    pose proof (lookup_lt_Some _ _ _ Ha) as Hlena.
    exists a, (<[a := CFiber (refreshed f g p)]> h). split_and!.
    + by apply cloneFiber_refresh with (f := f).
    + by apply pairing_symmetric_update with (g := g).
    + eexists. by apply list_lookup_insert_eq.
    + intros l [fl Hl]. destruct (decide (l = a)) as [-> | Hne].
      * eexists. by apply list_lookup_insert_eq.
      * exists fl. by rewrite list_lookup_insert_ne.
    + rewrite length_insert. lia.
    + rewrite length_insert. lia.
  - eexists _, _. split_and!.
    + by apply cloneFiber_alloc.
    + by apply pairing_symmetric_link.
    + eexists. apply lookup_allocated.
    + intros l [fl Hl]. pose proof (lookup_lt_Some _ _ _ Hl) as Hltl.
      destruct (decide (l = n)) as [-> | Hne].
      * eexists. by apply lookup_relinked.
      * exists fl. rewrite lookup_app_l by by rewrite length_insert.
        by rewrite list_lookup_insert_ne.
    + rewrite length_app, length_insert. simpl. lia.
    + rewrite length_app, length_insert. simpl. lia.
Qed.

(** X10: [cloneFiber] keeps the pairing of the whole heap symmetric: if
    every [alternate] link leads to a fiber that links back, this is so
    again after the call, every fiber is still a fiber, and at most one
    object was allocated. *)
Theorem cloneFiber_keeps_pairing (NoWork : PriorityLevel) (h : heap)
    (n : loc) (f : Fiber) (p : PriorityLevel) :
  pairing_symmetric h ->
  h !! n = Some (CFiber f) ->
  exists (a : loc) (h' : heap),
    cloneFiber NoWork n p h = Return a h' /\
    pairing_symmetric h' /\
    is_fiber h' a /\
    (forall l, is_fiber h l -> is_fiber h' l) /\
    length h <= length h' <= S (length h).
Proof.
  intros Hsym Hn.
  pose proof (lookup_lt_Some _ _ _ Hn) as Hlen.
  destruct (alternate f) as [a|] eqn:Halt.
  - destruct (Hsym n a f Hn Halt) as (g & Ha & Hback).
    pose proof (lookup_lt_Some _ _ _ Ha) as Hlena.
    exists a, (<[a := CFiber (refreshed f g p)]> h). split_and!.
    + by apply cloneFiber_refresh with (f := f).
    + by apply pairing_symmetric_update with (g := g).
    + eexists. by apply list_lookup_insert_eq.
    + intros l [fl Hl]. destruct (decide (l = a)) as [-> | Hne].
      * eexists. by apply list_lookup_insert_eq.
      * exists fl. by rewrite list_lookup_insert_ne.
    + rewrite length_insert. lia.
    + rewrite length_insert. lia.
  - eexists _, _. split_and!.
    + by apply cloneFiber_alloc.
    + by apply pairing_symmetric_link.
    + eexists. apply lookup_allocated.
    + intros l [fl Hl]. pose proof (lookup_lt_Some _ _ _ Hl) as Hltl.
      destruct (decide (l = n)) as [-> | Hne].
      * eexists. by apply lookup_relinked.
      * exists fl. rewrite lookup_app_l by by rewrite length_insert.
        by rewrite list_lookup_insert_ne.
    + rewrite length_app, length_insert. simpl. lia.
    + rewrite length_app, length_insert. simpl. lia.
Qed.

Lemma paired_heap_symmetric : pairing_symmetric paired_heap.
Proof.
  intros m m' fm Hm Halt.
  destruct m as [|[|[|[|m]]]]; simpl in Hm; simplify_eq; simpl in Halt;
    simplify_eq; eexists; split; reflexivity.
Qed.

(** X10 at the example pair. *)
Lemma cloneFiber_keeps_pairing_witness :
  exists (a : loc) (h' : heap),
    cloneFiber 0%Z 0 5%Z paired_heap = Return a h' /\
    pairing_symmetric h' /\
    is_fiber h' a /\
    (forall l, is_fiber paired_heap l -> is_fiber h' l) /\
    length paired_heap <= length h' <= S (length paired_heap).
Proof.
  apply (cloneFiber_keeps_pairing 0%Z paired_heap 0
           (set_alternate (Some 1) span_fiber) 5%Z).
  - exact paired_heap_symmetric.
  - reflexivity.
Defined.

Lemma is_unpaired_fiber (h : heap) (l : loc) (f : Fiber) :
  h !! l = Some (CFiber f) ->
  is_unpaired h l = match alternate f with None => true | Some _ => false end.
Proof. intros Hl. unfold is_unpaired. by rewrite Hl. Qed.

Lemma is_unpaired_same (h h' : heap) (l : loc) :
  h' !! l = h !! l -> is_unpaired h' l = is_unpaired h l.
Proof. intros Hl. unfold is_unpaired. by rewrite Hl. Qed.

(** One clone, on a heap whose pairing is symmetric: what it allocates and
    which fibers are left without alternate. *)
Lemma cloneFiber_step (NoWork : PriorityLevel) (h : heap) (n : loc)
    (p : PriorityLevel) :
  pairing_symmetric h ->
  is_fiber h n ->
  exists (a : loc) (h1 : heap),
    cloneFiber NoWork n p h = Return a h1 /\
    pairing_symmetric h1 /\
    (forall l, is_fiber h l -> is_fiber h1 l) /\
    length h1 = (if is_unpaired h n then S (length h) else length h) /\
    is_unpaired h1 n = false /\
    (forall l, l <> n -> is_unpaired h1 l = is_unpaired h l).
Proof.
  intros Hsym [f Hn].
  pose proof (lookup_lt_Some _ _ _ Hn) as Hlen.
  destruct (cloneFiber_keeps_pairing_core NoWork h n f p Hsym Hn)
    as (a & h1 & Hrun & Hsym1 & _ & Hfib & _).
  exists a, h1. split; [done|]. split; [done|]. split; [done|].
  revert Hrun. rewrite (is_unpaired_fiber h n f Hn).
  destruct (alternate f) as [a'|] eqn:Halt.
  - destruct (Hsym n a' f Hn Halt) as (g & Ha & Hback).
    pose proof (lookup_lt_Some _ _ _ Ha) as Hlena.
    rewrite (cloneFiber_refresh NoWork h n a' f g p Hn Halt Ha).
    intros [= <- <-]. split_and!.
    + by rewrite length_insert.
    + destruct (decide (a' = n)) as [-> | Hne].
      * assert (g = f) as -> by congruence.
        rewrite (is_unpaired_fiber _ n (refreshed f f p))
          by by apply list_lookup_insert_eq.
        simpl. by rewrite Halt.
      * rewrite (is_unpaired_fiber _ n f) by by rewrite list_lookup_insert_ne.
        by rewrite Halt.
    + intros l Hl. destruct (decide (l = a')) as [-> | Hne].
      * rewrite (is_unpaired_fiber _ a' (refreshed f g p))
          by by apply list_lookup_insert_eq.
        by rewrite (is_unpaired_fiber h a' g).
      * apply is_unpaired_same. by rewrite list_lookup_insert_ne.
  - rewrite (cloneFiber_alloc NoWork h n f p Hn Halt).
    intros [= <- <-]. split_and!.
    + rewrite length_app, length_insert. simpl. lia.
    + rewrite (is_unpaired_fiber _ n (set_alternate (Some (length h)) f))
        by by apply lookup_relinked.
      by destruct f.
    + intros l Hl. destruct (decide (l < length h)) as [Hlt | Hge].
      * apply is_unpaired_same.
        rewrite lookup_app_l by by rewrite length_insert.
        by rewrite list_lookup_insert_ne.
      * destruct (decide (l = length h)) as [-> | Hne].
        -- rewrite (is_unpaired_fiber _ (length h) (allocated f n p))
             by apply lookup_allocated.
           unfold is_unpaired. by rewrite lookup_ge_None_2.
        -- apply is_unpaired_same. rewrite !lookup_ge_None_2; [done | lia |].
           rewrite length_app, length_insert. simpl. lia.
Qed.

(** Counting the elements that satisfy a test which changes at one place. *)
Lemma filter_length_flip (P1 P2 : loc -> bool) (n : loc) (L : list loc) :
  NoDup L -> n ∈ L ->
  P2 n = true -> P1 n = false ->
  (forall l, l <> n -> P1 l = P2 l) ->
  length (List.filter P2 L) = S (length (List.filter P1 L)).
Proof.
  intros Hnd Hin H2 H1 Hother.
  induction Hnd as [|x L Hx Hnd IH]; [by apply elem_of_nil in Hin|].
  apply elem_of_cons in Hin as [<- | Hin].
  - simpl. rewrite H1, H2. simpl. f_equal. f_equal.
    apply List.filter_ext_in. intros l Hl. symmetry. apply Hother.
    intros ->. by apply Hx, list_elem_of_In.
  - assert (x <> n) as Hxn by (intros ->; done).
    simpl. rewrite (Hother x Hxn).
    destruct (P2 x); simpl; by rewrite IH.
Qed.

Lemma filter_agree_off (P1 P2 : loc -> bool) (n : loc) (L : list loc) :
  n ∉ L ->
  (forall l, l <> n -> P1 l = P2 l) ->
  List.filter P1 L = List.filter P2 L.
Proof.
  intros Hnin Hother. apply List.filter_ext_in. intros l Hl.
  apply Hother. intros ->. by apply Hnin, list_elem_of_In.
Qed.

(** A run of clones on a heap whose pairing is symmetric. *)
Lemma clone_each_count (NoWork : PriorityLevel)
    (calls : list (loc * PriorityLevel)) :
  forall h : heap,
    pairing_symmetric h ->
    Forall (fun c => is_fiber h c.1) calls ->
    exists (alts : list loc) (h' : heap),
      clone_each NoWork calls h = Return alts h' /\
      length alts = length calls /\
      pairing_symmetric h' /\
      (forall l, is_fiber h l -> is_fiber h' l) /\
      length h' =
        length h + length (List.filter (is_unpaired h) (remove_dups calls.*1)).
Proof.
  induction calls as [|[n p] calls IH]; intros h Hsym Hcalls.
  - exists [], h. split_and!; try done; simpl; lia.
  - apply Forall_cons in Hcalls as [Hn Hcalls]. simpl in Hn.
    destruct (cloneFiber_step NoWork h n p Hsym Hn)
      as (a & h1 & Hrun & Hsym1 & Hfib1 & Hlen1 & Hn1 & Hother).
    destruct (IH h1 Hsym1) as (alts & h' & Hrest & Hlen & Hsym' & Hfib' & Hcount).
    { eapply Forall_impl; [exact Hcalls|]. intros c Hc. by apply Hfib1. }
    exists (a :: alts), h'. split_and!.
    + simpl. by rewrite bind_unfold, Hrun, bind_unfold, Hrest.
    + simpl. by rewrite Hlen.
    + done.
    + intros l Hl. by apply Hfib', Hfib1.
    + rewrite Hcount, Hlen1. cbn [fmap list_fmap fst remove_dups].
      pose proof (NoDup_remove_dups (calls.*1)) as Hnd.
      destruct (is_unpaired h n) eqn:Hun.
      * destruct (decide_rel elem_of n calls.*1) as [Hin | Hnin].
        -- apply elem_of_remove_dups in Hin.
           rewrite (filter_length_flip (is_unpaired h1) (is_unpaired h) n
                      _ Hnd Hin Hun Hn1 Hother).
           lia.
        -- rewrite <- elem_of_remove_dups in Hnin.
           simpl. rewrite Hun. simpl.
           rewrite (filter_agree_off (is_unpaired h1) (is_unpaired h) n
                      _ Hnin Hother).
           lia.
      * assert (List.filter (is_unpaired h1) (remove_dups calls.*1)
                = List.filter (is_unpaired h) (remove_dups calls.*1)) as ->.
        { apply List.filter_ext. intros l.
          destruct (decide (l = n)) as [-> | Hne]; [congruence | by apply Hother]. }
        destruct (decide_rel elem_of n calls.*1) as [Hin | Hnin].
        -- done.
        -- simpl. by rewrite Hun.
Qed.

(** X11: on a heap whose pairing is symmetric, any run of clones of
    fibers of the heap returns, keeps the pairing symmetric, and allocates
    exactly one object for each distinct fiber that had no alternate,
    however often each fiber is cloned: no position gets a third fiber. *)
Theorem clone_each_allocates_once (NoWork : PriorityLevel) (h : heap)
    (calls : list (loc * PriorityLevel)) :
  pairing_symmetric h ->
  Forall (fun c => is_fiber h c.1) calls ->
  exists (alts : list loc) (h' : heap),
    clone_each NoWork calls h = Return alts h' /\
    length alts = length calls /\
    pairing_symmetric h' /\
    length h' =
      length h + length (List.filter (is_unpaired h) (remove_dups calls.*1)).
Proof.
  intros Hsym Hcalls.
  destruct (clone_each_count NoWork calls h Hsym Hcalls)
    as (alts & h' & ? & ? & ? & _ & ?).
  by exists alts, h'.
Qed.

Lemma single_heap_symmetric : pairing_symmetric single_heap.
Proof.
  intros m m' fm Hm Halt.
  destruct m as [|[|[|[|m]]]]; simpl in Hm; simplify_eq; simpl in Halt;
    simplify_eq.
Qed.

(** X11 at four clones of two fibers without alternate. *)
Lemma clone_each_allocates_once_witness :
  exists (alts : list loc) (h' : heap),
    clone_each 0%Z [(0, 1%Z); (1, 2%Z); (0, 3%Z); (1, 4%Z)] single_heap
      = Return alts h' /\
    length alts = 4 /\
    pairing_symmetric h' /\
    length h' =
      length single_heap +
      length (List.filter (is_unpaired single_heap)
                (remove_dups [(0, 1%Z); (1, 2%Z); (0, 3%Z); (1, 4%Z)].*1)).
Proof.
  apply (clone_each_allocates_once 0%Z single_heap
           [(0, 1%Z); (1, 2%Z); (0, 3%Z); (1, 4%Z)]).
  - exact single_heap_symmetric.
  - repeat constructor; eexists; reflexivity.
Defined.

(** ** Constructors and clones together *)

(** X12: a fiber built from an element whose type is a function or a
    string can be cloned at once: the clone is a second new fiber, the two
    are each other's alternate, the clone has the tag of the fiber and
    the type, key and props of the element, its priority is the one given
    to [cloneFiber], and the fiber keeps the priority it was built with. *)
Theorem createFiberFromElement_then_clone (NoWork : PriorityLevel)
    (env : environment) (h : heap)
    (element : ReactElement) (p q : PriorityLevel) :
  typeof (el_type element) = "function" \/ typeof (el_type element) = "string" ->
  exists (h1 h2 : heap) (f fa : Fiber),
    createFiberFromElement NoWork env element p h = Return (length h) h1 /\
    cloneFiber NoWork (length h) q h1 = Return (S (length h)) h2 /\
    h2 !! length h = Some (CFiber f) /\
    h2 !! S (length h) = Some (CFiber fa) /\
    alternate f = Some (S (length h)) /\ alternate fa = Some (length h) /\
    tag fa = tag f /\ type fa = el_type element /\
    key fa = el_key element /\
    pendingProps fa = el_props element /\ pendingProps f = el_props element /\
    pendingWorkPriority f = p /\ pendingWorkPriority fa = q.
Proof.
  intros Hty.
  destruct (createFiberFromElementType_cases NoWork env h
              (el_type element) (el_key element))
    as [(f0 & _ & Hrun0 & Htype & Hkey & _ & _ & Halt0)
       | [(l & Hl & _) | [(Hfun & Hstr & _) _]]].
  - pose proof (createFiberFromElement_fresh NoWork env element p h _
                  Hrun0) as Hrun1.
    cbn [cell_set_pendingProps cell_set_pendingWorkPriority] in Hrun1.
    set (f1 := set_pendingWorkPriority p
                 (set_pendingProps (el_props element) f0)) in *.
    assert (alternate f1 = None) as Halt1 by by destruct f0.
    assert ((h ++ [CFiber f1]) !! length h = Some (CFiber f1)) as Hn
      by apply lookup_last_cell.
    pose proof (cloneFiber_alloc NoWork _ _ f1 q Hn Halt1) as Hrun2.
    assert (length (h ++ [CFiber f1]) = S (length h)) as Hlen
      by (rewrite length_app; simpl; lia).
    rewrite Hlen in Hrun2.
    eexists _, _, (set_alternate (Some (S (length h))) f1),
      (allocated f1 (length h) q).
    split; [exact Hrun1|]. split; [exact Hrun2|]. split_and!.
    + apply lookup_relinked. lia.
    + rewrite <- Hlen. apply lookup_allocated.
    + by destruct f0.
    + done.
    + by destruct f0.
    + destruct f0. simpl in *. congruence.
    + destruct f0. simpl in *. congruence.
    + by destruct f0.
    + by destruct f0.
    + by destruct f0.
    + done.
  - rewrite Hl in Hty. by destruct Hty.
  - by destruct Hty.
Qed.

(** X12 at the host element of the example. *)
Lemma createFiberFromElement_then_clone_witness :
  exists (h1 h2 : heap) (f fa : Fiber),
    createFiberFromElement 0%Z plain_environment
      (mkElement (VString "span") (Some "a") (VObject 3))
      1%Z single_heap = Return (length single_heap) h1 /\
    cloneFiber 0%Z (length single_heap) 2%Z h1
      = Return (S (length single_heap)) h2 /\
    h2 !! length single_heap = Some (CFiber f) /\
    h2 !! S (length single_heap) = Some (CFiber fa) /\
    alternate f = Some (S (length single_heap)) /\
    alternate fa = Some (length single_heap) /\
    tag fa = tag f /\ type fa = VString "span" /\
    key fa = Some "a" /\
    pendingProps fa = VObject 3 /\ pendingProps f = VObject 3 /\
    pendingWorkPriority f = 1%Z /\ pendingWorkPriority fa = 2%Z.
Proof.
  apply (createFiberFromElement_then_clone 0%Z plain_environment single_heap
           (mkElement (VString "span") (Some "a") (VObject 3)) 1%Z 2%Z).
  right. reflexivity.
Defined.

(** Appending a fiber without alternate, or a plain object, keeps the
    pairing of the heap; so does overwriting a plain object. *)
Lemma pairing_symmetric_snoc (h : heap) (c : cell) :
  pairing_symmetric h ->
  (forall f, c = CFiber f -> alternate f = None) ->
  pairing_symmetric (h ++ [c]).
Proof.
  intros Hsym Hc m m' fm Hm Hmm'.
  apply lookup_app_Some in Hm as [Hm | [Hge Hm]].
  - destruct (Hsym m m' fm Hm Hmm') as (fm' & Hm' & Hback).
    exists fm'. split; [|done]. by apply lookup_old_cell.
  - destruct (m - length h) as [|i]; simpl in Hm; [|done].
    injection Hm as ->. rewrite (Hc fm eq_refl) in Hmm'. done.
Qed.

Lemma pairing_symmetric_update_object (h : heap) (l : loc)
    (m0 m1 : gmap string value) :
  pairing_symmetric h ->
  h !! l = Some (CObject m0) ->
  pairing_symmetric (<[l := CObject m1]> h).
Proof.
  intros Hsym Hl m m' fm Hm Hmm'.
  apply list_lookup_insert_Some in Hm as [(_ & [=] & _) | [Hne Hm]].
  destruct (Hsym m m' fm Hm Hmm') as (fm' & Hm' & Hback).
  exists fm'. split; [|done].
  rewrite list_lookup_insert_ne; [done|]. intros ->. congruence.
Qed.

(** X13: the constructors keep the pairing of the heap symmetric: after
    [createFiberFromElement] has returned, whatever the type of the
    element, and after [createFiberFromYield], every [alternate] link
    still leads to a fiber that links back. *)
Theorem constructors_keep_pairing (NoWork : PriorityLevel)
    (env : environment) (h : heap) :
  pairing_symmetric h ->
  (forall (element : ReactElement) (p : PriorityLevel) (l : loc) (h' : heap),
      createFiberFromElement NoWork env element p h = Return l h' ->
      pairing_symmetric h') /\
  (forall (yieldNode : ReactYield) (p : PriorityLevel),
      exists (l : loc) (h' : heap),
        createFiberFromYield NoWork yieldNode p h = Return l h' /\
        pairing_symmetric h').
Proof.
  intros Hsym. split.
  - intros element p l h'.
    destruct (createFiberFromElementType_cases NoWork env h
                (el_type element) (el_key element))
      as [(f0 & _ & Hrun0 & _ & _ & _ & _ & Halt0)
         | [(l' & Hl & Hrun0) | [_ Hrun0]]].
    + rewrite (createFiberFromElement_fresh NoWork env element p h _ Hrun0).
      intros [= <- <-].
      apply pairing_symmetric_snoc; [done|].
      intros f [= <-]. by destruct f0.
    + rewrite (createFiberFromElement_object NoWork env element p h l' Hl).
      destruct (h !! l') as [c|] eqn:Hc; [|done].
      destruct (_ || _); [done|]. destruct (_ || _); [done|].
      intros [= <- <-]. destruct c as [g | m0].
      * apply pairing_symmetric_update with (g := g); [done | done |].
        by destruct g.
      * by apply pairing_symmetric_update_object with (m0 := m0).
    + by rewrite (createFiberFromElement_throw NoWork env element p h h _ Hrun0).
  - intros yieldNode p.
    exists (length h),
      ((h ++ [CFiber (set_pendingProps (VObject (S (length h)))
                        (blank NoWork YieldComponent (y_key yieldNode)))])
       ++ [CObject ∅]).
    split.
    + unfold createFiberFromYield, createFiber.
      rewrite !run_alloc.
      erewrite run_set_field by (apply lookup_old_cell, lookup_last_cell).
      rewrite insert_app_l by (rewrite length_app; simpl; lia).
      rewrite insert_last_cell, length_app, Nat.add_1_r. done.
    + apply pairing_symmetric_snoc; [|done].
      apply pairing_symmetric_snoc; [done|]. by intros f [= <-].
Qed.

(** X13 on the example pair. *)
Lemma constructors_keep_pairing_witness :
  (forall (element : ReactElement) (p : PriorityLevel) (l : loc) (h' : heap),
      createFiberFromElement 0%Z plain_environment element p paired_heap
        = Return l h' ->
      pairing_symmetric h') /\
  (forall (yieldNode : ReactYield) (p : PriorityLevel),
      exists (l : loc) (h' : heap),
        createFiberFromYield 0%Z yieldNode p paired_heap = Return l h' /\
        pairing_symmetric h').
Proof.
  apply (constructors_keep_pairing 0%Z plain_environment paired_heap).
  exact paired_heap_symmetric.
Defined.

(** ** ReactCallReturn.js: calls and returns *)

Lemma strict_eq_refl (v : value) : strict_eq v v = true.
Proof.
  destruct v; simpl; try done.
  - by destruct b.
  - apply Z.eqb_refl.
  - apply String.eqb_refl.
  - apply String.eqb_refl.
  - apply Nat.eqb_refl.
  - apply Nat.eqb_refl.
Qed.

Lemma strict_eq_sym (a b : value) : strict_eq a b = strict_eq b a.
Proof.
  destruct a, b; simpl; try done.
  - by destruct b, b0.
  - apply Z.eqb_sym.
  - apply String.eqb_sym.
  - apply String.eqb_sym.
  - apply Nat.eqb_sym.
  - apply Nat.eqb_sym.
Qed.

(** The properties of a new call, read back. *)
Lemma createCall_property (TC : value) (dev fr : bool)
    (children handler props : value) (key : maybe_string)
    (st : heap * gset loc) (name : string) :
  read_property (unstable_createCall TC dev fr children handler props key st).2.1
    (VObject (unstable_createCall TC dev fr children handler props key st).1) name
  = default VUndefined
      ((<["props" := props]>
        (<["handler" := handler]>
        (<["children" := children]>
        (<["key" := match key with
                    | MString s => VString s
                    | _ => VNull
                    end]>
        (<["$$typeof" := TC]> (∅ : gmap string value)))))) !! name).
Proof.
  unfold unstable_createCall, read_property. cbn [fst snd].
  rewrite lookup_last_cell. by destruct key.
Qed.

Lemma createReturn_property (TR : value) (dev fr : bool) (v : value)
    (st : heap * gset loc) (name : string) :
  read_property (unstable_createReturn TR dev fr v st).2.1
    (VObject (unstable_createReturn TR dev fr v st).1) name
  = default VUndefined
      ((<["value" := v]> (<["$$typeof" := TR]> (∅ : gmap string value)))
       !! name).
Proof.
  unfold unstable_createReturn, read_property. cbn [fst snd].
  by rewrite lookup_last_cell.
Qed.

(** X14: what [unstable_createCall] builds is recognised by
    [unstable_isCall], and what [unstable_createReturn] builds by
    [unstable_isReturn], whatever the two tags are, in development mode or
    not. *)
Theorem isCall_createCall (TC TR : value) (dev fr : bool)
    (children handler props v : value) (key : maybe_string)
    (st : heap * gset loc) :
  unstable_isCall TC
    (VObject (unstable_createCall TC dev fr children handler props key st).1)
    (unstable_createCall TC dev fr children handler props key st).2.1 = true /\
  unstable_isReturn TR
    (VObject (unstable_createReturn TR dev fr v st).1)
    (unstable_createReturn TR dev fr v st).2.1 = true.
Proof.
  split.
  - unfold unstable_isCall. cbn [typeof String.eqb Ascii.eqb Bool.eqb strict_eq negb].
    rewrite createCall_property.
    rewrite !lookup_insert_ne by done. rewrite lookup_insert_eq.
    apply strict_eq_refl.
  - unfold unstable_isReturn. cbn [typeof String.eqb Ascii.eqb Bool.eqb strict_eq negb].
    rewrite createReturn_property.
    rewrite !lookup_insert_ne by done. rewrite lookup_insert_eq.
    apply strict_eq_refl.
Qed.

(** X15: when the two tags differ, a call is no return and a return is no
    call: [unstable_isReturn] is false on what [unstable_createCall]
    builds and [unstable_isCall] is false on what [unstable_createReturn]
    builds. *)
Theorem isReturn_createCall (TC TR : value) (dev fr : bool)
    (children handler props v : value) (key : maybe_string)
    (st : heap * gset loc) :
  strict_eq TC TR = false ->
  unstable_isReturn TR
    (VObject (unstable_createCall TC dev fr children handler props key st).1)
    (unstable_createCall TC dev fr children handler props key st).2.1 = false /\
  unstable_isCall TC
    (VObject (unstable_createReturn TR dev fr v st).1)
    (unstable_createReturn TR dev fr v st).2.1 = false.
Proof.
  intros Hdiff. split.
  - unfold unstable_isReturn. cbn [typeof String.eqb Ascii.eqb Bool.eqb strict_eq negb].
    rewrite createCall_property.
    rewrite !lookup_insert_ne by done. rewrite lookup_insert_eq.
    exact Hdiff.
  - unfold unstable_isCall. cbn [typeof String.eqb Ascii.eqb Bool.eqb strict_eq negb].
    rewrite createReturn_property.
    rewrite !lookup_insert_ne by done. rewrite lookup_insert_eq.
    simpl. by rewrite strict_eq_sym.
Qed.

(** X15 with the tags [Symbol.for('react.call')] and
    [Symbol.for('react.return')]. *)
Lemma isReturn_createCall_witness :
  unstable_isReturn (VSymbol "react.return")
    (VObject (unstable_createCall (VSymbol "react.call") true true
                (VObject 2) (VFunction 4 VUndefined) (VObject 3) (MString "k")
                (single_heap, ∅)).1)
    (unstable_createCall (VSymbol "react.call") true true
       (VObject 2) (VFunction 4 VUndefined) (VObject 3) (MString "k")
       (single_heap, ∅)).2.1 = false /\
  unstable_isCall (VSymbol "react.call")
    (VObject (unstable_createReturn (VSymbol "react.return") true true
                (VNumber 7) (single_heap, ∅)).1)
    (unstable_createReturn (VSymbol "react.return") true true
       (VNumber 7) (single_heap, ∅)).2.1 = false.
Proof.
  apply (isReturn_createCall (VSymbol "react.call") (VSymbol "react.return")
           true true (VObject 2) (VFunction 4 VUndefined) (VObject 3)
           (VNumber 7) (MString "k") (single_heap, ∅)).
  reflexivity.
Defined.

(** X16: [unstable_createCall] allocates one new object and touches no
    other; read back from it, [children], [handler] and [props] are the
    arguments as they were passed, and [key] is null when the key passed
    is undefined or null and the string itself otherwise, never
    undefined. *)
Theorem createCall_fields (TC : value) (dev fr : bool)
    (children handler props : value) (key : maybe_string)
    (st : heap * gset loc) :
  let r := unstable_createCall TC dev fr children handler props key st in
  r.1 = length st.1 /\
  (exists c : cell, r.2.1 = st.1 ++ [c]) /\
  read_property r.2.1 (VObject r.1) "children" = children /\
  read_property r.2.1 (VObject r.1) "handler" = handler /\
  read_property r.2.1 (VObject r.1) "props" = props /\
  read_property r.2.1 (VObject r.1) "key"
    = match key with MString s => VString s | _ => VNull end /\
  read_property r.2.1 (VObject r.1) "$$typeof" = TC.
Proof.
  intros r. subst r. split; [done|]. split; [by eexists|].
  rewrite !createCall_property. split_and!.
  - rewrite !lookup_insert_ne by done. by rewrite lookup_insert_eq.
  - rewrite !lookup_insert_ne by done. by rewrite lookup_insert_eq.
  - by rewrite lookup_insert_eq.
  - rewrite !lookup_insert_ne by done. by rewrite lookup_insert_eq.
  - rewrite !lookup_insert_ne by done. by rewrite lookup_insert_eq.
Qed.

(** X17: outside development mode, or without [Object.freeze],
    [unstable_createCall] freezes nothing.  In development mode it freezes
    the call and the object passed as props, and nothing else: an object
    passed as children is frozen after the call only if it was frozen
    before or is the props object. *)
Theorem createCall_freezes (TC : value)
    (children handler props : value) (key : maybe_string)
    (h : heap) (frozen : gset loc) :
  (forall dev fr : bool,
      dev && fr = false ->
      (unstable_createCall TC dev fr children handler props key (h, frozen)).2.2
        = frozen) /\
  let r := unstable_createCall TC true true children handler props key (h, frozen) in
  r.1 ∈ r.2.2 /\
  (forall l : loc, props = VObject l -> l ∈ r.2.2) /\
  (forall l : loc, l ∈ r.2.2 -> l ∈ frozen \/ l = r.1 \/ props = VObject l).
Proof.
  split.
  - intros dev fr Hoff. unfold unstable_createCall. cbn [fst snd].
    by destruct dev, fr.
  - intros r.
    assert (r.2.2 = {[length h]} ∪ object_freeze props frozen) as Hfrozen.
    { subst r. unfold unstable_createCall. cbn [fst snd object_freeze].
      f_equal. f_equal. unfold read_property. rewrite lookup_last_cell.
      by rewrite lookup_insert_eq. }
    assert (r.1 = length h) as Hcall by done.
    rewrite Hfrozen, Hcall. split_and!.
    + apply elem_of_union. left. by apply elem_of_singleton.
    + intros l ->. simpl. apply elem_of_union. right.
      apply elem_of_union. left. by apply elem_of_singleton.
    + intros l Hin. apply elem_of_union in Hin as [Hin | Hin].
      * apply elem_of_singleton in Hin. right. by left.
      * destruct props; simpl in Hin; try (by left).
        apply elem_of_union in Hin as [Hin | Hin]; [|by left].
        apply elem_of_singleton in Hin. right. right. by subst.
Qed.
